(** * Multi-Agent-Quants: the debate engine of [agents/debate_agent.py]

    A shallow embedding of class [DebateAgent]: the round-based debate loop
    ([_conduct_debate]), the keyword stance classifier ([_extract_stances]),
    the transcript formatter ([_format_previous_rounds]), the two memory
    stores and the heuristic confidence score ([_calculate_confidence]).

    Conventions of the embedding.
    - A Python [str] is a [string]; [lower] and [upper] act on the ASCII
      letters and leave every other character alone, which is what Python
      does on ASCII text.
    - A Python [float] is a binary64 number ([PrimFloat.float]); the
      arithmetic of the score is the IEEE arithmetic Python performs.
    - A Python [dict] read by key is a [gmap string Value].
    - The text generator reached through [_create_prompt] (class
      [BaseAgent]) and the summarizer [summarize_speeches] are external:
      they are oracles indexed by the number of requests made so far, and
      either may raise. *)

From Stdlib Require Import ZArith String Ascii List Bool Lia.
From Stdlib Require Import Floats Uint63 DecimalString.
From stdpp Require Import base option list gmap strings.
Import ListNotations.

Set Warnings "-inexact-float,-register-all,-clear-no-such-hyp".

Local Open Scope string_scope.

(** ** Python strings *)

Module PyStr.

Definition nl : string := String (ascii_of_nat 10) EmptyString.

Definition lower_char (c : ascii) : ascii :=
  let n := nat_of_ascii c in
  if Nat.leb 65 n && Nat.leb n 90 then ascii_of_nat (n + 32) else c.

Definition upper_char (c : ascii) : ascii :=
  let n := nat_of_ascii c in
  if Nat.leb 97 n && Nat.leb n 122 then ascii_of_nat (n - 32) else c.

Fixpoint map_chars (f : ascii -> ascii) (s : string) : string :=
  match s with
  | EmptyString => EmptyString
  | String c r => String (f c) (map_chars f r)
  end.

(** [s.lower()] and [s.upper()] *)
Definition lower : string -> string := map_chars lower_char.
Definition upper : string -> string := map_chars upper_char.

(** [needle in text] *)
Fixpoint isin (needle text : string) : bool :=
  String.prefix needle text
  || match text with
     | EmptyString => false
     | String _ r => isin needle r
     end.

(** [sep.join(parts)] *)
Fixpoint join (sep : string) (parts : list string) : string :=
  match parts with
  | [] => EmptyString
  | [p] => p
  | p :: rest => p +:+ sep +:+ join sep rest
  end.

(** [str(n)] for a Python [int] *)
Definition of_int (n : Z) : string := NilZero.string_of_int (Z.to_int n).

(** A text written over several source lines. *)
Definition unlines : list string -> string := join nl.

End PyStr.

(** ** Python floats *)

Module PyFloat.

Local Open Scope float_scope.

(** Conversion of an [int] operand in [int * float]. *)
Definition of_int (n : Z) : float :=
  if (n <? 0)%Z then - PrimFloat.of_uint63 (Uint63.of_Z (- n))
  else PrimFloat.of_uint63 (Uint63.of_Z n).

(** [min(a, b)] and [max(a, b)]: the first argument unless the second
    is strictly smaller (resp. larger). *)
Definition min (a b : float) : float := if PrimFloat.ltb b a then b else a.
Definition max (a b : float) : float := if PrimFloat.ltb a b then b else a.

Definition le (a b : float) : Prop := PrimFloat.leb a b = true.

End PyFloat.

(** ** Data model *)

(** One transcript entry: [{"round": .., "perspective": .., "arguments": ..}]. *)
Record RoundEntry := mkEntry {
  round : Z;
  perspective : string;
  arguments : string
}.

(** The values found in the input and result dictionaries. *)
Inductive Value :=
| VNone
| VStr (s : string)
| VInt (n : Z)
| VFloat (x : float)
| VDict (d : gmap string Value)
| VRounds (l : list RoundEntry).

(** [v == s] for a string literal [s]. *)
Definition eq_str (v : Value) (s : string) : bool :=
  match v with
  | VStr t => String.eqb t s
  | _ => false
  end.

(** One row of [self.roles]. *)
Record Role := mkRole {
  name : string;
  description : string
}.

(** ** Stance extraction and transcript formatting *)

Definition stance_of (text : string) : string :=
  let text := PyStr.lower text in
  if PyStr.isin "bullish" text then "bullish"
  else if PyStr.isin "bearish" text then "bearish"
  else "neutral".

Fixpoint _extract_stances (round_data : list RoundEntry) : list string :=
  match round_data with
  | [] => []
  | r :: rest => stance_of (arguments r) :: _extract_stances rest
  end.

Definition format_entry (round_data : RoundEntry) : string :=
  "Round " +:+ PyStr.of_int (round round_data) +:+ " ("
    +:+ PyStr.upper (perspective round_data) +:+ "):" +:+ PyStr.nl
    +:+ arguments round_data +:+ PyStr.nl.

Definition _format_previous_rounds (debate_rounds : list RoundEntry) : string :=
  match debate_rounds with
  | [] => "No previous arguments."
  | _ => PyStr.join PyStr.nl (map format_entry debate_rounds)
  end.

(** ** Confidence score *)

Definition args_of (who : string) (debate_rounds : list RoundEntry) : list string :=
  map arguments (filter (fun r => perspective r = who) debate_rounds).

Definition role_text (who : string) (debate_rounds : list RoundEntry) : string :=
  PyStr.lower (PyStr.join " " (args_of who debate_rounds)).

(** A truth value counted as 0 or 1. *)
Definition b2z (b : bool) : Z := if b then 1%Z else 0%Z.

(** The local helper [check_pairwise] of [_calculate_confidence]. *)
Definition check_pairwise (text_a text_b : string) : Z * Z :=
  let local_agreements := 0%Z in
  let local_disagreements := 0%Z in
  let local_agreements :=
    if PyStr.isin "mild increase" text_a && PyStr.isin "mild increase" text_b
    then (local_agreements + 1)%Z else local_agreements in
  let '(local_agreements, local_disagreements) :=
    if PyStr.isin "low risk" text_a && PyStr.isin "low risk" text_b
    then ((local_agreements + 1)%Z, local_disagreements)
    else if (PyStr.isin "low risk" text_a && PyStr.isin "high risk" text_b)
            || (PyStr.isin "high risk" text_a && PyStr.isin "low risk" text_b)
    then (local_agreements, (local_disagreements + 1)%Z)
    else (local_agreements, local_disagreements) in
  let local_disagreements :=
    if PyStr.isin "downward pressure" text_a && PyStr.isin "upward momentum" text_b
    then (local_disagreements + 1)%Z
    else if PyStr.isin "downward pressure" text_b && PyStr.isin "upward momentum" text_a
    then (local_disagreements + 1)%Z
    else local_disagreements in
  (local_agreements, local_disagreements).

(** The confidence after the trend adjustment (source lines 210-219). *)
Definition trend_confidence (market_data : gmap string Value) : float :=
  let confidence := 0.5%float in
  let trend := default (VStr "flat") (market_data !! "trend") in
  if eq_str trend "up" then (confidence + 0.1)%float
  else if eq_str trend "down" then (confidence - 0.05)%float
  else (confidence - 0.02)%float.

(** The agreement and disagreement totals over the three pairs
    (source lines 257-270). *)
Definition pair_totals (f t r : string) : Z * Z :=
  let agreements := 0%Z in
  let disagreements := 0%Z in
  let '(a, d) := check_pairwise f t in
  let agreements := (agreements + a)%Z in
  let disagreements := (disagreements + d)%Z in
  let '(a, d) := check_pairwise f r in
  let agreements := (agreements + a)%Z in
  let disagreements := (disagreements + d)%Z in
  let '(a, d) := check_pairwise t r in
  let agreements := (agreements + a)%Z in
  let disagreements := (disagreements + d)%Z in
  (agreements, disagreements).

Definition crossing : string := "moving average crossing above price".

(** The technical-phrase test of source lines 276-281. *)
Definition crossing_bonus (f t r : string) : bool :=
  (PyStr.isin crossing f && PyStr.isin crossing t)
  || (PyStr.isin crossing f && PyStr.isin crossing r)
  || (PyStr.isin crossing t && PyStr.isin crossing r).

(** Lines 272-282 on given totals: the agreement and disagreement terms,
    then the bonus of the technical phrase. *)
Definition adjust (confidence : float) (agreements disagreements : Z)
    (bonus : bool) : float :=
  let confidence := (confidence + PyFloat.of_int agreements * 0.05)%float in
  let confidence := (confidence - PyFloat.of_int disagreements * 0.05)%float in
  if bonus then (confidence + 0.03)%float else confidence.

(** The value of [confidence] just before the clamp of line 284. *)
Definition raw_confidence (debate_rounds : list RoundEntry)
    (market_data : gmap string Value) : float :=
  let confidence := trend_confidence market_data in
  let all_fundamental_text := role_text "fundamental" debate_rounds in
  let all_technical_text := role_text "technical" debate_rounds in
  let all_risk_text := role_text "risk" debate_rounds in
  let '(agreements, disagreements) :=
    pair_totals all_fundamental_text all_technical_text all_risk_text in
  adjust confidence agreements disagreements
    (crossing_bonus all_fundamental_text all_technical_text all_risk_text).

Definition _calculate_confidence (debate_rounds : list RoundEntry)
    (market_data : gmap string Value) : float :=
  let confidence := raw_confidence debate_rounds market_data in
  PyFloat.max 0.0%float (PyFloat.min 1.0%float confidence).

(** ** The agent: personas, memory and the external collaborators *)

(** [self.debate_rounds] and [self.roles], set by [__init__] (lines 8-35)
    and never assigned again. *)
Definition debate_rounds_count : nat := 3.

Definition roles : list Role :=
  [ mkRole "fundamental" (PyStr.unlines
      [ "You are a Fundamental Analyst focusing on macroeconomic indicators,";
        "                                    company financials, sector trends, and other fundamental factors that";
        "                                    influence the asset's intrinsic value. ";
        "                                    Your goal is to provide arguments about the proposed action from a fundamental perspective.";
        "                                    You can choose your stance (Bullish or Bearish) freely each round.";
        "                                    Argue briefly and directly." ]);
    mkRole "technical" (PyStr.unlines
      [ "You are a Technical Analyst focusing on price trends, chart patterns,";
        "                                    technical indicators, and volume analysis.";
        "                                    Your goal is to provide arguments about the proposed action from a technical perspective.";
        "                                    You can choose your stance (Bullish or Bearish) freely each round.";
        "                                    Argue briefly and directly." ]);
    mkRole "risk" (PyStr.unlines
      [ "You are a Risk Analyst focusing on potential risks, uncertainties, ";
        "                                    volatility, regulatory changes, and market sentiment shifts.";
        "                                    Your goal is to provide arguments about the proposed action from a risk management perspective.";
        "                                    You can choose your stance (Bullish or Bearish) freely each round.";
        "                                    Argue briefly and directly." ]) ].

(** The fixed text of the round prompt (source lines 79-103), cut at the
    interpolated fields. *)

Definition debate_head : string :=
  PyStr.unlines
    [ EmptyString;
      "                Round " ].

Definition debate_of : string :=
  PyStr.unlines
    [ " of debate (" ].

Definition debate_market : string :=
  PyStr.unlines
    [ "):";
      "                ";
      "                Market Data:";
      "                " ].

Definition debate_action : string :=
  PyStr.unlines
    [ EmptyString;
      EmptyString;
      "                Proposed Action:";
      "                " ].

Definition debate_mid : string :=
  PyStr.unlines
    [ EmptyString;
      EmptyString;
      "                Mid-term Memory (accumulated):";
      "                " ].

Definition debate_short : string :=
  PyStr.unlines
    [ EmptyString;
      EmptyString;
      "                Short-term Memory (last round only):";
      "                " ].

Definition debate_prev : string :=
  PyStr.unlines
    [ EmptyString;
      EmptyString;
      "                Previous Arguments:";
      "                " ].

Definition debate_tail : string :=
  PyStr.unlines
    [ EmptyString;
      EmptyString;
      "                Instructions:";
      "                - At the start of your argument, explicitly state your stance for this round as either Bullish or Bearish.";
      "                - Present your viewpoint (4-5 sentences).";
      "                - You can react to previous arguments if they exist, or establish a stance on the action.";
      "                - If no differing opinions are found, you may also choose a stance and clarify it.";
      "                - Keep it concise and debate-like.";
      "                " ].

Definition synthesis_role : string :=
  PyStr.unlines
    [ "You are a senior market strategist tasked with synthesizing insights ";
      "                    from three specialized analysts (fundamental, technical, and risk). ";
      "                    Combine their perspectives into a balanced and actionable final analysis." ].

Definition synth_head : string :=
  PyStr.unlines
    [ EmptyString;
      "        Synthesize the following debate rounds into a final analysis:";
      EmptyString;
      "        Mid-term Memory (accumulated from all rounds):";
      "        " ].

Definition synth_short : string :=
  PyStr.unlines
    [ EmptyString;
      EmptyString;
      "        Short-term Memory (just last round):";
      "        " ].

Definition synth_history : string :=
  PyStr.unlines
    [ EmptyString;
      "        ";
      "        Debate History:";
      "        " ].

Definition synth_tail : string :=
  PyStr.unlines
    [ EmptyString;
      "        ";
      "        Provide a balanced analysis addressing:";
      "        1. Key Points of Agreement";
      "        2. Major Points of Contention";
      "        3. Risk-Reward Assessment";
      "        4. Final Recommendation";
      "        " ].

(** The two memory stores of an instance. *)
Record DebateAgent := mkAgent {
  mid_term_memory : list string;
  short_term_memory : list string
}.

(** [DebateAgent.__init__] (source lines 36-38). *)
Definition __init__ : DebateAgent := mkAgent [] [].

(** An instance together with the number of requests the external
    services have received so far. *)
Record World := mkWorld {
  self : DebateAgent;
  requests : nat
}.

Inductive exn :=
| GenerationFailure
| SummarizerFailure
| IndexError
| AttributeError.

Inductive outcome (A : Type) :=
| Ok (a : A)
| Raise (e : exn).
Arguments Ok {A} a.
Arguments Raise {A} e.

(** Computations that read and update the instance and may raise. *)
Definition M (A : Type) : Type := World -> outcome A * World.

Definition ret {A} (a : A) : M A := fun w => (Ok a, w).

Definition bind {A B} (m : M A) (k : A -> M B) : M B :=
  fun w =>
    match m w with
    | (Ok a, w') => k a w'
    | (Raise e, w') => (Raise e, w')
    end.

Definition raise {A} (e : exn) : M A := fun w => (Raise e, w).

Definition get_self : M DebateAgent := fun w => (Ok (self w), w).

Definition set_self (f : DebateAgent -> DebateAgent) : M unit :=
  fun w => (Ok tt, mkWorld (f (self w)) (requests w)).

#[global] Instance M_ret : MRet M := @ret.
#[global] Instance M_bind : MBind M := fun A B k m => bind m k.

(** Modelled from the spec: [MemorySummaryAgent.add_to_short_term_memory]
    and [add_to_mid_term_memory] live in agents/debate_memory.py, which is
    not among the sources. The spec (4.3) says the first replaces the
    single slot of the container it is given and the second appends to the
    ordered sequence; both act on the list passed by the caller. *)
Definition add_to_short_term_memory (container : list string) (summary : string)
    : list string := [summary].

Definition add_to_mid_term_memory (container : list string) (summary : string)
    : list string := (container ++ [summary])%list.

Definition _get_mid_term_info (a : DebateAgent) : string :=
  match mid_term_memory a with
  | [] => "No mid-term memory recorded."
  | _ => PyStr.join " | " (mid_term_memory a)
  end.

Definition _get_short_term_info (a : DebateAgent) : string :=
  match last (short_term_memory a) with
  | None => "No short-term memory recorded."
  | Some s => s
  end.

(** ** The debate loop *)

Section Engine.

(** [_create_prompt] of [BaseAgent]: the answer of the text generator to
    its [n]-th request, [None] when the call raises. *)
Variable generate : nat -> string -> string -> option string.

(** [MemorySummaryAgent.summarize_speeches], likewise. *)
Variable summarize : nat -> list string -> option string.

(** [str(v)], as interpolated by an f-string. *)
Variable py_str : Value -> string.

Definition _create_prompt (role content : string) : M string :=
  fun w =>
    (match generate (requests w) role content with
     | Some response => Ok response
     | None => Raise GenerationFailure
     end,
     mkWorld (self w) (S (requests w))).

Definition summarize_speeches (speeches : list string) : M string :=
  fun w =>
    (match summarize (requests w) speeches with
     | Some summary => Ok summary
     | None => Raise SummarizerFailure
     end,
     mkWorld (self w) (S (requests w))).

Definition round_role (round_num : nat) (role_info : Role) : string :=
  match round_num with
  | O => description role_info
  | _ => "You are the " +:+ name role_info
         +:+ " analyst. Continue focusing on your domain. Remember you can choose Bullish or Bearish freely."
  end.

Definition round_content (round_num : nat) (perspective_name : string)
    (market_data proposed_action : Value) (a : DebateAgent)
    (debate_rounds : list RoundEntry) : string :=
  debate_head +:+ PyStr.of_int (Z.of_nat round_num + 1)
    +:+ debate_of +:+ PyStr.upper perspective_name
    +:+ debate_market +:+ py_str market_data
    +:+ debate_action +:+ py_str proposed_action
    +:+ debate_mid +:+ _get_mid_term_info a
    +:+ debate_short +:+ _get_short_term_info a
    +:+ debate_prev +:+ _format_previous_rounds debate_rounds
    +:+ debate_tail.

(** The inner loop [for role_info in self.roles] (lines 72-110);
    [round_results] is the buffer filled so far. *)
Fixpoint persona_loop (round_num : nat) (market_data proposed_action : Value)
    (debate_rounds : list RoundEntry) (todo : list Role)
    (round_results : list RoundEntry) : M (list RoundEntry) :=
  match todo with
  | [] => mret round_results
  | role_info :: todo' =>
      let role := round_role round_num role_info in
      let perspective_name := name role_info in
      a ← get_self;
      let content := round_content round_num perspective_name
                       market_data proposed_action a debate_rounds in
      response ← _create_prompt role content;
      persona_loop round_num market_data proposed_action debate_rounds todo'
        (round_results ++
           [mkEntry (Z.of_nat round_num + 1) perspective_name response])%list
  end.

(** [len(set(stances)) <= 1] *)
Definition converged (stances : list string) : bool :=
  bool_decide (size (list_to_set stances : gset string) <= 1).

(** Lines 118-123: the memory update after a round that did not
    converge. *)
Definition remember_round (round_results : list RoundEntry) : M unit :=
  match last round_results with
  | None => raise IndexError
  | Some r =>
      let last_round_num := round r in
      let this_round_data :=
        map arguments
          (filter (fun r => round r = last_round_num) round_results) in
      round_summary ← summarize_speeches this_round_data;
      set_self (fun a => mkAgent (mid_term_memory a) []);;
      set_self (fun a => mkAgent (mid_term_memory a)
          (add_to_short_term_memory (short_term_memory a) round_summary));;
      set_self (fun a => mkAgent
          (add_to_mid_term_memory (mid_term_memory a) round_summary)
          (short_term_memory a))
  end.

(** One iteration of [for round_num in range(self.debate_rounds)]
    (lines 71-123): the extended transcript, and whether the iteration
    ended in [break]. *)
Definition debate_round (round_num : nat) (market_data proposed_action : Value)
    (debate_rounds : list RoundEntry) : M (bool * list RoundEntry) :=
  round_results ← persona_loop round_num market_data proposed_action
                    debate_rounds roles [];
  let debate_rounds := (debate_rounds ++ round_results)%list in
  let stances := _extract_stances round_results in
  if converged stances then mret (true, debate_rounds)
  else
    remember_round round_results;;
    mret (false, debate_rounds).

(** The loop over the round numbers still to run; the flag tells
    whether it was left through [break]. *)
Fixpoint round_loop (market_data proposed_action : Value)
    (todo : list nat) (debate_rounds : list RoundEntry)
    : M (bool * list RoundEntry) :=
  match todo with
  | [] => mret (false, debate_rounds)
  | round_num :: todo' =>
      '(stop, debate_rounds) ←
        debate_round round_num market_data proposed_action debate_rounds;
      if stop : bool then mret (true, debate_rounds)
      else round_loop market_data proposed_action todo' debate_rounds
  end.

Definition _conduct_debate (market_data proposed_action : Value)
    : M (list RoundEntry) :=
  '(_, debate_rounds) ←
    round_loop market_data proposed_action (seq 0 debate_rounds_count) [];
  mret debate_rounds.

Definition _synthesize_debate (debate_rounds : list RoundEntry) : M string :=
  a ← get_self;
  let content :=
    synth_head +:+ _get_mid_term_info a
      +:+ synth_short +:+ _get_short_term_info a
      +:+ synth_history +:+ _format_previous_rounds debate_rounds
      +:+ synth_tail in
  _create_prompt synthesis_role content.

(** [market_data.get(..)] needs a dictionary. *)
Definition as_dict (v : Value) : M (gmap string Value) :=
  match v with
  | VDict d => mret d
  | _ => raise AttributeError
  end.

(** [analyze]; [save_to_memory] belongs to [BaseAgent] and does not
    touch the two debate memories. *)
Definition analyze (data : gmap string Value) : M (gmap string Value) :=
  let market_data := default (VDict ∅) (data !! "market_data") in
  let proposed_action := default (VDict ∅) (data !! "proposed_action") in
  debate_results ← _conduct_debate market_data proposed_action;
  final_analysis ← _synthesize_debate debate_results;
  md ← as_dict market_data;
  let analysis_result : gmap string Value :=
    <["confidence_score" := VFloat (_calculate_confidence debate_results md)]>
    (<["timestamp" := default VNone (data !! "timestamp")]>
    (<["debate_rounds" := VRounds debate_results]>
    (<["debate_analysis" := VStr final_analysis]> ∅))) in
  mret analysis_result.

End Engine.

(** ** Concrete collaborators and inputs used in the examples *)

Module Examples.

(** Three speeches: bullish, bearish, and without a stance. *)
Definition bull : string := "Bullish. Earnings show a mild increase and low risk.".
Definition bear : string := "Bearish. Charts show downward pressure and high risk.".
Definition side : string := "Volatility is too high to take a side.".

(** A generator whose three analysts never agree: the fundamental
    analyst is bullish, the technical analyst bearish, the risk analyst
    takes no side; asked for the synthesis it answers in one word. *)
Definition stubborn_panel (n : nat) (role content : string) : option string :=
  let who := PyStr.lower role in
  Some (if PyStr.isin "strategist" who then "Hold."
        else if PyStr.isin "fundamental analyst" who then bull
        else if PyStr.isin "technical analyst" who then bear
        else side).

(** A generator whose analysts all open bullish. *)
Definition unanimous_panel (n : nat) (role content : string) : option string :=
  Some "Bullish. Upward momentum with low risk.".

(** A generator that is out of service. *)
Definition no_service (n : nat) (role content : string) : option string :=
  None.

(** A summarizer that numbers its digests by request. *)
Definition digest (n : nat) (speeches : list string) : option string :=
  Some ("digest#" +:+ PyStr.of_int (Z.of_nat n) +:+ ": "
        +:+ PyStr.join " / " speeches).

(** A rendering of dictionaries that shows no detail. *)
Definition opaque_str (v : Value) : string := "{...}".

Definition up_market : gmap string Value := {[ "trend" := VStr "up" ]}.

Definition request : gmap string Value :=
  {[ "market_data" := VDict up_market; "timestamp" := VStr "2024-01-01T00:00:00" ]}.

Definition fresh : World := mkWorld __init__ 0.

(** The digest of a round of the stubborn analysts made at request [n]. *)
Definition stubborn_digest (n : Z) : string :=
  "digest#" +:+ PyStr.of_int n +:+ ": " +:+ PyStr.join " / " [bull; bear; side].

(** Two rounds of the stubborn analysts on a new instance, and the
    instance after them. *)
Definition two_rounds_transcript : list RoundEntry :=
  [ mkEntry 1 "fundamental" bull; mkEntry 1 "technical" bear; mkEntry 1 "risk" side;
    mkEntry 2 "fundamental" bull; mkEntry 2 "technical" bear; mkEntry 2 "risk" side ].

Definition after_two_rounds : World :=
  mkWorld (mkAgent [stubborn_digest 3; stubborn_digest 7] [stubborn_digest 7]) 8.

(** The instance after one whole analysis with the stubborn analysts. *)
Definition after_first_analysis : World :=
  mkWorld (mkAgent [stubborn_digest 3; stubborn_digest 7; stubborn_digest 11]
             [stubborn_digest 11]) 13.

(** What the unanimous analysts say in their only round. *)
Definition unanimous_transcript : list RoundEntry :=
  [ mkEntry 1 "fundamental" "Bullish. Upward momentum with low risk.";
    mkEntry 1 "technical" "Bullish. Upward momentum with low risk.";
    mkEntry 1 "risk" "Bullish. Upward momentum with low risk." ].

End Examples.

(** A transcript in which the fundamental analyst speaks twice; the same
    entries with the technical analyst moved to the end; and the same
    entries in reverse order. *)
Definition two_part_transcript : list RoundEntry :=
  [ mkEntry 1 "fundamental" "Bullish: I expect a mild";
    mkEntry 1 "technical" "Bullish: a mild increase is on the chart";
    mkEntry 2 "fundamental" "increase in earnings" ].

Definition two_part_regrouped : list RoundEntry :=
  [ mkEntry 1 "fundamental" "Bullish: I expect a mild";
    mkEntry 2 "fundamental" "increase in earnings";
    mkEntry 1 "technical" "Bullish: a mild increase is on the chart" ].

Definition two_part_swapped : list RoundEntry :=
  [ mkEntry 2 "fundamental" "increase in earnings";
    mkEntry 1 "technical" "Bullish: a mild increase is on the chart";
    mkEntry 1 "fundamental" "Bullish: I expect a mild" ].

(** ** Helpers of the application ([app.py]) *)

(** [parse_timeframe_to_days] (lines 434-452). *)
Definition parse_timeframe_to_days (timeframe : string) : Z :=
  let timeframe := PyStr.lower timeframe in
  if String.eqb timeframe "1d" then 1%Z
  else if String.eqb timeframe "1w" then 7%Z
  else if String.eqb timeframe "2w" then 14%Z
  else if String.eqb timeframe "1m" then 30%Z
  else if String.eqb timeframe "3m" then 90%Z
  else if String.eqb timeframe "6m" then 180%Z
  else if String.eqb timeframe "1y" then 365%Z
  else 30%Z.

(** [c.isspace()] on ASCII characters: tab to carriage return, the four
    separators 28 to 31, and the space. *)
Definition is_space (c : ascii) : bool :=
  let n := nat_of_ascii c in
  (Nat.leb 9 n && Nat.leb n 13) || (Nat.leb 28 n && Nat.leb n 32).

Fixpoint lstrip (s : string) : string :=
  match s with
  | EmptyString => EmptyString
  | String c r => if is_space c then lstrip r else s
  end.

Fixpoint rstrip (s : string) : string :=
  match s with
  | EmptyString => EmptyString
  | String c r =>
      match rstrip r with
      | EmptyString => if is_space c then EmptyString else String c EmptyString
      | r' => String c r'
      end
  end.

(** [s.strip()] *)
Definition strip (s : string) : string := rstrip (lstrip s).

(** What reading [utils/symbols.txt] gives: its lines, each with its line
    break, or one of the two failures the function tells apart. *)
Inductive symbols_file :=
| Lines (lines : list string)
| NotFound
| Unreadable (reason : string).

(** [get_available_symbols] (lines 86-100): the symbols, and the messages
    passed to [st.error]. The cache of one hour put around the function is
    left out. *)
Definition get_available_symbols (f : symbols_file) : list string * list string :=
  match f with
  | Lines lines =>
      (map strip (filter (fun line => strip line <> EmptyString) lines), [])
  | NotFound => ([], ["Could not find utils/symbols.txt file"])
  | Unreadable reason => ([], ["Error loading symbols: " +:+ reason])
  end.

(** ** Further notions used in the statements *)

(** An entry with the perspectives [p] and [q] exchanged. *)
Definition exchange (p q : string) (e : RoundEntry) : RoundEntry :=
  if decide (perspective e = p) then mkEntry (round e) q (arguments e)
  else if decide (perspective e = q) then mkEntry (round e) p (arguments e)
  else e.

(** The entries of the three analysts. *)
Definition known_perspective (e : RoundEntry) : Prop :=
  perspective e = "fundamental" \/ perspective e = "technical"
  \/ perspective e = "risk".

(** Transcripts with the most disagreements and with the most
    agreements the score can count. *)
Definition quarrel : list RoundEntry :=
  [ mkEntry 1 "fundamental" "Low risk; downward pressure now, upward momentum later.";
    mkEntry 1 "technical" "High risk; downward pressure now, upward momentum later.";
    mkEntry 1 "risk" "High risk; downward pressure now, upward momentum later." ].

Definition chorus : list RoundEntry :=
  [ mkEntry 1 "fundamental" "Mild increase, low risk, moving average crossing above price.";
    mkEntry 1 "technical" "Mild increase, low risk, moving average crossing above price.";
    mkEntry 1 "risk" "Mild increase, low risk, moving average crossing above price." ].

(** A request whose market data is a text, not a dictionary. *)
Definition text_market_request : gmap string Value :=
  {[ "market_data" := VStr "AAPL closed higher";
     "timestamp" := VStr "2024-01-01T00:00:00" ]}.

(** A transcript in which two analysts speak twice and the phrases are
    cut between their entries and capitalised in places. *)
Definition split_speeches : list RoundEntry :=
  [ mkEntry 1 "fundamental" "We expect a mild";
    mkEntry 1 "technical" "Exposure is LOW";
    mkEntry 2 "fundamental" "increase at low risk";
    mkEntry 2 "technical" "Risk, with a mild increase" ].

(** ** Notions used in the proofs *)

(** A computation whose every run, normal or not, links the instance
    before and after by [R]. *)
Definition steady {A} (R : relation DebateAgent) (m : M A) : Prop :=
  forall w, R (self w) (self (snd (m w))).

(** The memory after some rounds: untouched, or the mid-term memory
    extended by summaries of which the last one fills the short-term
    memory. *)
Definition grown (a a' : DebateAgent) : Prop :=
  a' = a
  \/ exists (earlier : list string) (s : string),
       mid_term_memory a' = (mid_term_memory a ++ earlier ++ [s])%list
       /\ short_term_memory a' = [s].

(** * Properties *)

(** ** Stance extraction *)

Lemma extract_stances_map (round_data : list RoundEntry) :
  _extract_stances round_data = map (fun r => stance_of (arguments r)) round_data.
Proof.
  induction round_data as [|r rest IH]; simpl; [reflexivity|].
  now rewrite IH.
Qed.

(** C7. [_extract_stances] yields one label per entry, in the order of the
    entries; the label of an entry is found on its lower-cased text:
    bullish when the word bullish occurs, else bearish when bearish
    occurs, else neutral. A text with both words is bullish. *)
Theorem extract_stances_spec (round_data : list RoundEntry) :
  length (_extract_stances round_data) = length round_data
  /\ (forall i : nat,
        _extract_stances round_data !! i
        = (fun r =>
             let text := PyStr.lower (arguments r) in
             if PyStr.isin "bullish" text then "bullish"
             else if PyStr.isin "bearish" text then "bearish"
             else "neutral") <$> round_data !! i)
  /\ _extract_stances
       [ mkEntry 1 "fundamental" "Bearish on margins, yet BULLISH overall";
         mkEntry 1 "technical" "Clearly Bearish";
         mkEntry 1 "risk" "No view" ]
     = ["bullish"; "bearish"; "neutral"].
Proof.
  rewrite extract_stances_map.
  split; [apply length_map|].
  split; [|reflexivity].
  intros i. rewrite list_lookup_fmap. reflexivity.
Qed.

(** ** Transcript formatting *)

Lemma join_cons2 (sep p q : string) (rest : list string) :
  PyStr.join sep (p :: q :: rest) = p +:+ sep +:+ PyStr.join sep (q :: rest).
Proof. reflexivity. Qed.

(** C9. On an empty transcript [_format_previous_rounds] is the sentinel
    text; on a transcript with entries it is the entries, each rendered as
    the round line with the upper-cased perspective, the text and a line
    break, joined by line breaks in transcript order. It is a function of
    the transcript alone, so formatting twice gives the same text. *)
Theorem format_previous_rounds_spec (e e' : RoundEntry) (rest debate_rounds : list RoundEntry) :
  _format_previous_rounds [] = "No previous arguments."
  /\ _format_previous_rounds (e :: rest)
     = PyStr.join PyStr.nl
         (map (fun r => "Round " +:+ PyStr.of_int (round r) +:+ " ("
                          +:+ PyStr.upper (perspective r) +:+ "):" +:+ PyStr.nl
                          +:+ arguments r +:+ PyStr.nl)
              (e :: rest))
  /\ _format_previous_rounds [e] = format_entry e
  /\ _format_previous_rounds (e :: e' :: rest)
     = format_entry e +:+ PyStr.nl +:+ _format_previous_rounds (e' :: rest)
  /\ _format_previous_rounds
       [ mkEntry 1 "fundamental" "Bullish."; mkEntry 2 "risk" "Bearish." ]
     = "Round 1 (FUNDAMENTAL):" +:+ PyStr.nl +:+ "Bullish." +:+ PyStr.nl
         +:+ PyStr.nl
         +:+ "Round 2 (RISK):" +:+ PyStr.nl +:+ "Bearish." +:+ PyStr.nl
  /\ _format_previous_rounds debate_rounds = _format_previous_rounds debate_rounds.
Proof.
  split; [reflexivity|].
  split; [reflexivity|].
  split; [reflexivity|].
  split; [|split; reflexivity].
  unfold _format_previous_rounds. cbn [map]. apply join_cons2.
Qed.

(** ** The confidence score *)

Section Confidence.

Local Open Scope Z_scope.

Lemma check_pairwise_counts (text_a text_b : string) :
  check_pairwise text_a text_b
  = ( b2z (PyStr.isin "mild increase" text_a && PyStr.isin "mild increase" text_b)
      + b2z (PyStr.isin "low risk" text_a && PyStr.isin "low risk" text_b),
      b2z (negb (PyStr.isin "low risk" text_a && PyStr.isin "low risk" text_b)
           && ((PyStr.isin "low risk" text_a && PyStr.isin "high risk" text_b)
               || (PyStr.isin "high risk" text_a && PyStr.isin "low risk" text_b)))
      + b2z ((PyStr.isin "downward pressure" text_a && PyStr.isin "upward momentum" text_b)
             || (PyStr.isin "downward pressure" text_b && PyStr.isin "upward momentum" text_a)) ).
Proof.
  unfold check_pairwise.
  destruct (PyStr.isin "mild increase" text_a), (PyStr.isin "mild increase" text_b),
    (PyStr.isin "low risk" text_a), (PyStr.isin "low risk" text_b),
    (PyStr.isin "high risk" text_a), (PyStr.isin "high risk" text_b),
    (PyStr.isin "downward pressure" text_a), (PyStr.isin "upward momentum" text_b),
    (PyStr.isin "downward pressure" text_b), (PyStr.isin "upward momentum" text_a);
    reflexivity.
Qed.

Lemma b2z_range (b : bool) : 0 <= b2z b <= 1.
Proof. destruct b; simpl; lia. Qed.

Lemma check_pairwise_range (text_a text_b : string) :
  0 <= fst (check_pairwise text_a text_b) <= 2
  /\ 0 <= snd (check_pairwise text_a text_b) <= 2.
Proof.
  rewrite check_pairwise_counts. cbn [fst snd].
  repeat match goal with |- context [b2z ?b] =>
    pose proof (b2z_range b); generalize dependent (b2z b); intros end.
  lia.
Qed.

Lemma pair_totals_sum (f t r : string) :
  pair_totals f t r
  = ( fst (check_pairwise f t) + fst (check_pairwise f r) + fst (check_pairwise t r),
      snd (check_pairwise f t) + snd (check_pairwise f r) + snd (check_pairwise t r) ).
Proof.
  unfold pair_totals.
  destruct (check_pairwise f t), (check_pairwise f r), (check_pairwise t r).
  reflexivity.
Qed.

(** Of the three pairs at most two can oppose low risk to high risk: a
    disagreement needs a text without the words low risk on one side. *)
Lemma risk_disagreements_le_2 (lf lt lr hf ht hr : bool) :
  b2z (negb (lf && lt) && ((lf && ht) || (hf && lt)))
  + b2z (negb (lf && lr) && ((lf && hr) || (hf && lr)))
  + b2z (negb (lt && lr) && ((lt && hr) || (ht && lr))) <= 2.
Proof. destruct lf, lt, lr, hf, ht, hr; simpl; lia. Qed.

Lemma pair_totals_range (f t r : string) :
  0 <= fst (pair_totals f t r) <= 6 /\ 0 <= snd (pair_totals f t r) <= 5.
Proof.
  rewrite pair_totals_sum. cbn [fst snd].
  split.
  - pose proof (check_pairwise_range f t).
    pose proof (check_pairwise_range f r).
    pose proof (check_pairwise_range t r). lia.
  - rewrite !check_pairwise_counts. cbn [snd].
    pose proof (risk_disagreements_le_2
      (PyStr.isin "low risk" f) (PyStr.isin "low risk" t) (PyStr.isin "low risk" r)
      (PyStr.isin "high risk" f) (PyStr.isin "high risk" t) (PyStr.isin "high risk" r)).
    repeat match goal with |- context [b2z ?b] =>
      pose proof (b2z_range b); generalize dependent (b2z b); intros end.
    lia.
Qed.

Lemma trend_confidence_cases (market_data : gmap string Value) :
  trend_confidence market_data = (0.5 + 0.1)%float
  \/ trend_confidence market_data = (0.5 - 0.05)%float
  \/ trend_confidence market_data = (0.5 - 0.02)%float.
Proof.
  unfold trend_confidence.
  destruct (eq_str _ "up"); [now left|].
  destruct (eq_str _ "down"); [right; now left|right; now right].
Qed.

Lemma small_total (n bound : Z) :
  0 <= n <= bound -> bound <= 6 ->
  n = 0 \/ n = 1 \/ n = 2 \/ n = 3 \/ n = 4 \/ n = 5 \/ n = 6.
Proof. lia. Qed.

(** Every score the three adjustments can produce lies in the stated
    ranges and is left alone by the clamp. *)
Lemma adjust_facts (base : float) (agreements disagreements : Z) (bonus : bool) :
  base = (0.5 + 0.1)%float \/ base = (0.5 - 0.05)%float \/ base = (0.5 - 0.02)%float ->
  0 <= agreements <= 6 -> 0 <= disagreements <= 5 ->
  let x := adjust base agreements disagreements bonus in
  PyFloat.le 0.15 x /\ PyFloat.le x 0.93
  /\ PyFloat.le 0.0 x /\ PyFloat.le x 1.0
  /\ PyFloat.max 0.0 (PyFloat.min 1.0 x) = x.
Proof.
  intros Hbase HA HD.
  apply small_total in HA; [|lia].
  assert (HD' : disagreements = 0 \/ disagreements = 1 \/ disagreements = 2
                \/ disagreements = 3 \/ disagreements = 4 \/ disagreements = 5) by lia.
  clear HD.
  destruct Hbase as [->|[->| ->]];
    destruct HA as [->|[->|[->|[->|[->|[->| ->]]]]]];
    destruct HD' as [->|[->|[->|[->|[->| ->]]]]];
    destruct bonus; vm_compute; repeat split; reflexivity.
Qed.

Lemma raw_confidence_facts (debate_rounds : list RoundEntry)
    (market_data : gmap string Value) :
  let x := raw_confidence debate_rounds market_data in
  PyFloat.le 0.15 x /\ PyFloat.le x 0.93
  /\ PyFloat.le 0.0 x /\ PyFloat.le x 1.0
  /\ PyFloat.max 0.0 (PyFloat.min 1.0 x) = x.
Proof.
  unfold raw_confidence.
  pose proof (pair_totals_range (role_text "fundamental" debate_rounds)
    (role_text "technical" debate_rounds) (role_text "risk" debate_rounds)) as [HA HD].
  destruct (pair_totals _ _ _) as [agreements disagreements].
  apply adjust_facts; [apply trend_confidence_cases|exact HA|exact HD].
Qed.


(** C5. The signals of one pair of texts: one agreement when both mention
    a mild increase; one agreement when both mention low risk, otherwise
    one disagreement when one mentions low risk and the other high risk;
    one disagreement when one mentions downward pressure and the other
    upward momentum. The pairs are taken over the texts of the three
    analysts, each the analyst's entries joined by single spaces in
    transcript order and then lower-cased. The totals over the three pairs
    enter the score as agreements times 0.05 added and disagreements times
    0.05 subtracted. The two example texts give two agreements, worth
    0.10. *)
Theorem pairwise_signal_counts (text_a text_b : string)
    (debate_rounds : list RoundEntry) (market_data : gmap string Value) :
  check_pairwise text_a text_b
  = ( b2z (PyStr.isin "mild increase" text_a && PyStr.isin "mild increase" text_b)
      + b2z (PyStr.isin "low risk" text_a && PyStr.isin "low risk" text_b),
      b2z (negb (PyStr.isin "low risk" text_a && PyStr.isin "low risk" text_b)
           && ((PyStr.isin "low risk" text_a && PyStr.isin "high risk" text_b)
               || (PyStr.isin "high risk" text_a && PyStr.isin "low risk" text_b)))
      + b2z ((PyStr.isin "downward pressure" text_a && PyStr.isin "upward momentum" text_b)
             || (PyStr.isin "downward pressure" text_b && PyStr.isin "upward momentum" text_a)) )
  /\ (let text_of := fun who : string =>
        PyStr.lower
          (PyStr.join " "
             (map arguments
                (filter (fun r => perspective r = who) debate_rounds))) in
      let f := text_of "fundamental" in
      let t := text_of "technical" in
      let r := text_of "risk" in
      let A := fst (check_pairwise f t) + fst (check_pairwise f r)
               + fst (check_pairwise t r) in
      let D := snd (check_pairwise f t) + snd (check_pairwise f r)
               + snd (check_pairwise t r) in
      let c := (trend_confidence market_data
                + PyFloat.of_int A * 0.05 - PyFloat.of_int D * 0.05)%float in
      raw_confidence debate_rounds market_data
      = if crossing_bonus f t r then (c + 0.03)%float else c)
  /\ check_pairwise "the trend shows mild increase and low risk"
       "we also see mild increase with low risk" = (2, 0)
  /\ check_pairwise "low risk and high risk" "low risk" = (1, 0)
  /\ check_pairwise "low risk, upward momentum" "high risk and downward pressure"
     = (0, 2)
  /\ check_pairwise "downward pressure, upward momentum"
       "downward pressure, upward momentum" = (0, 1)
  /\ (PyFloat.of_int 2 * 0.05 - PyFloat.of_int 0 * 0.05 = 0.1)%float
  /\ _calculate_confidence
       [ mkEntry 1 "fundamental" "The trend shows mild increase and low risk";
         mkEntry 1 "technical" "We also see mild increase with low risk" ]
       {[ "trend" := VStr "up" ]}
     = (0.5 + 0.1 + 0.1)%float
  /\ _calculate_confidence
       [ mkEntry 1 "fundamental" "MILD INCREASE ahead, Low Risk";
         mkEntry 1 "technical" "Mild Increase and LOW RISK" ]
       {[ "trend" := VStr "up" ]}
     = (0.5 + 0.1 + 0.1)%float
  /\ role_text "fundamental" split_speeches
     = "we expect a mild increase at low risk"
  /\ role_text "technical" split_speeches
     = "exposure is low risk, with a mild increase"
  /\ role_text "risk" split_speeches = EmptyString
  /\ _calculate_confidence split_speeches {[ "trend" := VStr "up" ]}
     = (0.5 + 0.1 + 0.1)%float
  /\ _calculate_confidence
       [ mkEntry 1 "fundamental" "Low Risk, Upward Momentum";
         mkEntry 1 "risk" "HIGH RISK and Downward Pressure" ]
       {[ "trend" := VStr "up" ]}
     = (0.5 + 0.1 - 0.1)%float.
Proof.
  split; [apply check_pairwise_counts|].
  split; [|repeat split; reflexivity].
  unfold raw_confidence, role_text, args_of. rewrite pair_totals_sum. reflexivity.
Qed.

(** C10. Each pair yields at most two agreements and two disagreements,
    so the totals are at most six; the score before the clamp lies between
    0.15 and 0.93, and the clamp to the unit interval returns it
    unchanged. *)
Theorem raw_confidence_within_bounds (text_a text_b : string)
    (debate_rounds : list RoundEntry) (market_data : gmap string Value) :
  (0 <= fst (check_pairwise text_a text_b) <= 2
   /\ 0 <= snd (check_pairwise text_a text_b) <= 2)
  /\ (let totals := pair_totals (role_text "fundamental" debate_rounds)
                      (role_text "technical" debate_rounds)
                      (role_text "risk" debate_rounds) in
      0 <= fst totals <= 6 /\ 0 <= snd totals <= 6)
  /\ PyFloat.le 0.15 (raw_confidence debate_rounds market_data)
  /\ PyFloat.le (raw_confidence debate_rounds market_data) 0.93
  /\ _calculate_confidence debate_rounds market_data
     = raw_confidence debate_rounds market_data.
Proof.
  split; [apply check_pairwise_range|].
  split.
  { cbn zeta.
    pose proof (pair_totals_range (role_text "fundamental" debate_rounds)
      (role_text "technical" debate_rounds) (role_text "risk" debate_rounds)).
    lia. }
  pose proof (raw_confidence_facts debate_rounds market_data) as (H1 & H2 & _ & _ & H5).
  split; [exact H1|]. split; [exact H2|exact H5].
Qed.

End Confidence.

(** Two transcripts with the same texts per analyst have the same score. *)
Lemma confidence_of_role_texts (t1 t2 : list RoundEntry)
    (market_data : gmap string Value) :
  args_of "fundamental" t1 = args_of "fundamental" t2 ->
  args_of "technical" t1 = args_of "technical" t2 ->
  args_of "risk" t1 = args_of "risk" t2 ->
  raw_confidence t1 market_data = raw_confidence t2 market_data.
Proof.
  intros Hf Ht Hr. unfold raw_confidence, role_text.
  now rewrite Hf, Ht, Hr.
Qed.

(** C4, as the code has it. The score is a function of the market data
    and of the three sequences of texts, one per analyst, each in
    transcript order: transcripts that agree on these sequences have the
    same score, however the analysts are interleaved. *)
Theorem confidence_order_within_roles (t1 t2 : list RoundEntry)
    (market_data : gmap string Value)
    (Hf : args_of "fundamental" t1 = args_of "fundamental" t2)
    (Ht : args_of "technical" t1 = args_of "technical" t2)
    (Hr : args_of "risk" t1 = args_of "risk" t2) :
  _calculate_confidence t1 market_data = _calculate_confidence t2 market_data.
Proof.
  unfold _calculate_confidence.
  now rewrite (confidence_of_role_texts t1 t2 market_data Hf Ht Hr).
Qed.

Lemma confidence_order_within_roles_witness :
  args_of "fundamental" two_part_transcript = args_of "fundamental" two_part_regrouped
  /\ args_of "technical" two_part_transcript = args_of "technical" two_part_regrouped
  /\ args_of "risk" two_part_transcript = args_of "risk" two_part_regrouped
  /\ _calculate_confidence two_part_transcript Examples.up_market
     = _calculate_confidence two_part_regrouped Examples.up_market.
Proof.
  do 3 (split; [reflexivity|]).
  apply (confidence_order_within_roles two_part_transcript two_part_regrouped
           Examples.up_market); reflexivity.
Defined.

(** Counterexample to C4 as stated: reversing a transcript in which the fundamental
    analyst speaks twice changes the joined text, and with it the score. *)
Lemma confidence_depends_on_order :
  two_part_swapped ≡ₚ two_part_transcript
  /\ _calculate_confidence two_part_transcript Examples.up_market = 0.65%float
  /\ _calculate_confidence two_part_swapped Examples.up_market = 0.6%float
  /\ _calculate_confidence two_part_swapped Examples.up_market
     <> _calculate_confidence two_part_transcript Examples.up_market.
Proof.
  split; [symmetry; apply (Permutation_rev two_part_transcript)|].
  split; [reflexivity|]. split; [reflexivity|].
  intros H.
  apply (f_equal (fun x => PrimFloat.eqb x 0.6%float)) in H.
  vm_compute in H. discriminate H.
Qed.

(** ** Running the debate *)

Lemma bind_run {A B} (m : M A) (k : A -> M B) (w : World) :
  (m ≫= k) w
  = match m w with
    | (Ok a, w') => k a w'
    | (Raise e, w') => (Raise e, w')
    end.
Proof. reflexivity. Qed.

Lemma bind_ok {A B} (m : M A) (k : A -> M B) (w w' : World) (b : B) :
  (m ≫= k) w = (Ok b, w') ->
  exists a w1, m w = (Ok a, w1) /\ k a w1 = (Ok b, w').
Proof.
  rewrite bind_run. destruct (m w) as [[a|e] w1]; [|discriminate].
  intros H. now exists a, w1.
Qed.

Lemma steady_ret {A} (R : relation DebateAgent) `{!Reflexive R} (a : A) :
  steady R (mret a).
Proof. intros w. reflexivity. Qed.

Lemma steady_raise {A} (R : relation DebateAgent) `{!Reflexive R} (e : exn) :
  steady R (@raise A e).
Proof. intros w. reflexivity. Qed.

Lemma steady_bind {A B} (R : relation DebateAgent) `{!Transitive R}
    (m : M A) (k : A -> M B) :
  steady R m -> (forall a, steady R (k a)) -> steady R (m ≫= k).
Proof.
  intros Hm Hk w. rewrite bind_run.
  specialize (Hm w). destruct (m w) as [[a|e] w1]; simpl in *; [|exact Hm].
  etransitivity; [exact Hm|apply Hk].
Qed.

#[local] Instance grown_refl : Reflexive grown.
Proof. intros a. now left. Qed.

#[local] Instance grown_trans : Transitive grown.
Proof.
  intros a b c [->|(l1 & s1 & Hm1 & Hs1)] [->|(l2 & s2 & Hm2 & Hs2)].
  - now left.
  - right. now exists l2, s2.
  - right. now exists l1, s1.
  - right. exists (l1 ++ [s1] ++ l2)%list, s2. split; [|exact Hs2].
    rewrite Hm2, Hm1. now rewrite <- !app_assoc.
Qed.

Section Runs.

Variable generate : nat -> string -> string -> option string.
Variable summarize : nat -> list string -> option string.
Variable py_str : Value -> string.

Lemma create_prompt_self (role content : string) :
  steady eq (_create_prompt generate role content).
Proof. intros w. reflexivity. Qed.

Lemma persona_loop_self (round_num : nat) (market_data proposed_action : Value)
    (debate_rounds : list RoundEntry) (todo : list Role) :
  forall round_results,
    steady eq (persona_loop generate py_str round_num market_data proposed_action
                 debate_rounds todo round_results).
Proof.
  induction todo as [|role_info todo IH]; intros round_results; cbn [persona_loop].
  - apply steady_ret; apply _.
  - apply steady_bind; [apply _|intros w; reflexivity|]. intros a.
    apply steady_bind; [apply _|apply create_prompt_self|]. intros response.
    apply IH.
Qed.

Lemma persona_loop_ok (round_num : nat) (market_data proposed_action : Value)
    (debate_rounds : list RoundEntry) (todo : list Role) :
  forall round_results w rr w',
    persona_loop generate py_str round_num market_data proposed_action
      debate_rounds todo round_results w = (Ok rr, w') ->
    requests w' = requests w + length todo
    /\ exists responses : list string,
         length responses = length todo
         /\ rr = (round_results
                  ++ zip_with (fun role_info response =>
                                 mkEntry (Z.of_nat round_num + 1) (name role_info) response)
                       todo responses)%list.
Proof.
  induction todo as [|role_info todo IH]; intros round_results w rr w' Hrun;
    cbn [persona_loop] in Hrun.
  - injection Hrun as <- <-. split; [simpl; lia|].
    exists []. split; [reflexivity|]. simpl. now rewrite app_nil_r.
  - apply bind_ok in Hrun as (a & w1 & Ha & Hrun). injection Ha as <- <-.
    apply bind_ok in Hrun as (response & w2 & Hresp & Hrun).
    unfold _create_prompt in Hresp.
    destruct (generate (requests w) _ _) as [r|]; [|discriminate].
    injection Hresp as <- <-.
    apply IH in Hrun as (Hreq & responses & Hlen & ->). cbn [requests] in Hreq.
    split; [simpl; lia|].
    exists (r :: responses). split; [simpl; now rewrite Hlen|].
    simpl. now rewrite <- app_assoc.
Qed.

Lemma persona_loop_total (round_num : nat) (market_data proposed_action : Value)
    (debate_rounds : list RoundEntry) (todo : list Role) :
  (forall n role content, is_Some (generate n role content)) ->
  forall round_results w,
    exists rr w',
      persona_loop generate py_str round_num market_data proposed_action
        debate_rounds todo round_results w = (Ok rr, w').
Proof.
  intros Hgen.
  induction todo as [|role_info todo IH]; intros round_results w; cbn [persona_loop].
  - now exists round_results, w.
  - rewrite bind_run. cbn [get_self]. rewrite bind_run. unfold _create_prompt.
    destruct (Hgen (requests w) (round_role round_num role_info)
      (round_content py_str round_num (name role_info) market_data proposed_action
         (self w) debate_rounds)) as [r ->].
    apply IH.
Qed.

(** The three entries of one round. *)
Lemma persona_round (round_num : nat) (market_data proposed_action : Value)
    (debate_rounds : list RoundEntry) (w : World) (rr : list RoundEntry) (w' : World) :
  persona_loop generate py_str round_num market_data proposed_action
    debate_rounds roles [] w = (Ok rr, w') ->
  self w' = self w /\ requests w' = requests w + 3
  /\ exists a b c : string,
       rr = [ mkEntry (Z.of_nat round_num + 1) "fundamental" a;
              mkEntry (Z.of_nat round_num + 1) "technical" b;
              mkEntry (Z.of_nat round_num + 1) "risk" c ].
Proof.
  intros Hrun.
  pose proof (persona_loop_self round_num market_data proposed_action
                debate_rounds roles [] w) as Hself.
  rewrite Hrun in Hself. cbn [snd] in Hself.
  apply persona_loop_ok in Hrun as (Hreq & responses & Hlen & ->).
  split; [now symmetry|]. split; [exact Hreq|].
  destruct responses as [|a [|b [|c [|]]]]; try discriminate Hlen.
  now exists a, b, c.
Qed.

Lemma remember_round_run (a b c : RoundEntry) (w : World) :
  round a = round c -> round b = round c ->
  remember_round summarize [a; b; c] w
  = match summarize (requests w) [arguments a; arguments b; arguments c] with
    | Some s =>
        (Ok tt,
         mkWorld (mkAgent (mid_term_memory (self w) ++ [s]) [s]) (S (requests w)))
    | None => (Raise SummarizerFailure, mkWorld (self w) (S (requests w)))
    end.
Proof.
  intros Ha Hb. unfold remember_round. cbn [last].
  rewrite !filter_cons_True by (cbn; congruence).
  rewrite filter_nil. cbn [map]. rewrite bind_run.
  unfold summarize_speeches.
  destruct (summarize (requests w) _); reflexivity.
Qed.

Lemma remember_round_grown (round_results : list RoundEntry) :
  steady grown (remember_round summarize round_results).
Proof.
  intros w. unfold remember_round.
  destruct (last round_results) as [r|]; [|now left].
  rewrite bind_run. unfold summarize_speeches.
  destruct (summarize (requests w) _) as [s|]; [|now left].
  right. exists [], s. now split.
Qed.

(** One iteration that ends normally: the three new entries, the verdict
    on their stances, and the memory update when the debate goes on. *)
Lemma debate_round_ok (round_num : nat) (market_data proposed_action : Value)
    (debate_rounds : list RoundEntry) (w : World)
    (stop : bool) (debate_rounds' : list RoundEntry) (w' : World) :
  debate_round generate summarize py_str round_num market_data proposed_action
    debate_rounds w = (Ok (stop, debate_rounds'), w') ->
  exists a b c : string,
    let rr := [ mkEntry (Z.of_nat round_num + 1) "fundamental" a;
                mkEntry (Z.of_nat round_num + 1) "technical" b;
                mkEntry (Z.of_nat round_num + 1) "risk" c ] in
    debate_rounds' = (debate_rounds ++ rr)%list
    /\ stop = converged (_extract_stances rr)
    /\ if stop
       then self w' = self w /\ requests w' = requests w + 3
       else exists s : string,
              summarize (requests w + 3) [a; b; c] = Some s
              /\ self w' = mkAgent (mid_term_memory (self w) ++ [s]) [s]
              /\ requests w' = requests w + 4.
Proof.
  unfold debate_round. intros Hrun.
  apply bind_ok in Hrun as (rr & w1 & Hrr & Hrun).
  apply persona_round in Hrr as (Hself & Hreq & a & b & c & ->).
  exists a, b, c. cbn zeta.
  destruct (converged _) eqn:Hconv.
  - injection Hrun as <- <- <-. now repeat split.
  - apply bind_ok in Hrun as ([] & w2 & Hrem & Hrun).
    injection Hrun as <- <- <-.
    do 2 (split; [reflexivity|]).
    rewrite remember_round_run in Hrem by reflexivity. cbn [arguments] in Hrem.
    rewrite Hreq, Hself in Hrem.
    destruct (summarize (requests w + 3) [a; b; c]) as [s|]; [|discriminate].
    injection Hrem as <-. exists s. cbn. repeat split. lia.
Qed.

Lemma debate_round_grown (round_num : nat) (market_data proposed_action : Value)
    (debate_rounds : list RoundEntry) :
  steady grown (debate_round generate summarize py_str round_num market_data
                  proposed_action debate_rounds).
Proof.
  unfold debate_round. apply steady_bind; [apply _| |].
  - intros w. rewrite <- (persona_loop_self round_num market_data
      proposed_action debate_rounds roles [] w). reflexivity.
  - intros rr. destruct (converged _); [apply steady_ret; apply _|].
    apply steady_bind; [apply _|apply remember_round_grown|].
    intros _. apply steady_ret; apply _.
Qed.

Lemma debate_round_total (round_num : nat) (market_data proposed_action : Value)
    (debate_rounds : list RoundEntry) (w : World) :
  (forall n role content, is_Some (generate n role content)) ->
  (forall n speeches, is_Some (summarize n speeches)) ->
  exists out w',
    debate_round generate summarize py_str round_num market_data proposed_action
      debate_rounds w = (Ok out, w').
Proof.
  intros Hgen Hsum. unfold debate_round. rewrite bind_run.
  destruct (persona_loop_total round_num market_data proposed_action debate_rounds
              roles Hgen [] w) as (rr & w1 & Hrr).
  rewrite Hrr.
  apply persona_round in Hrr as (_ & _ & a & b & c & ->).
  destruct (converged _); [now eexists _, _|].
  rewrite bind_run, remember_round_run by reflexivity.
  destruct (Hsum (requests w1) [a; b; c]) as [s Hs]. cbn [arguments].
  rewrite Hs. now eexists _, _.
Qed.

Lemma round_loop_step (market_data proposed_action : Value)
    (round_num : nat) (todo : list nat) (debate_rounds : list RoundEntry) (w : World) :
  round_loop generate summarize py_str market_data proposed_action
    (round_num :: todo) debate_rounds w
  = match debate_round generate summarize py_str round_num market_data
            proposed_action debate_rounds w with
    | (Ok (true, debate_rounds'), w1) => (Ok (true, debate_rounds'), w1)
    | (Ok (false, debate_rounds'), w1) =>
        round_loop generate summarize py_str market_data proposed_action
          todo debate_rounds' w1
    | (Raise e, w1) => (Raise e, w1)
    end.
Proof.
  cbn [round_loop]. rewrite bind_run.
  destruct (debate_round _ _ _ _ _ _ _ w) as [[[[] dr]|e] w1]; reflexivity.
Qed.

(** The loop over a range cut in two: the second part runs from where the
    first part ended, unless that part was left through [break]. *)
Lemma round_loop_app (market_data proposed_action : Value) (todo1 todo2 : list nat) :
  forall debate_rounds w,
    round_loop generate summarize py_str market_data proposed_action
      (todo1 ++ todo2) debate_rounds w
    = match round_loop generate summarize py_str market_data proposed_action
              todo1 debate_rounds w with
      | (Ok (true, debate_rounds'), w1) => (Ok (true, debate_rounds'), w1)
      | (Ok (false, debate_rounds'), w1) =>
          round_loop generate summarize py_str market_data proposed_action
            todo2 debate_rounds' w1
      | (Raise e, w1) => (Raise e, w1)
      end.
Proof.
  induction todo1 as [|round_num todo1 IH]; intros debate_rounds w.
  - reflexivity.
  - rewrite <- app_comm_cons, !round_loop_step.
    destruct (debate_round _ _ _ _ _ _ _ w) as [[[[] dr]|e] w1]; [reflexivity| |reflexivity].
    apply IH.
Qed.

Lemma round_loop_grown (market_data proposed_action : Value) (todo : list nat) :
  forall debate_rounds,
    steady grown (round_loop generate summarize py_str market_data proposed_action
                    todo debate_rounds).
Proof.
  induction todo as [|round_num todo IH]; intros debate_rounds; cbn [round_loop].
  - apply steady_ret; apply _.
  - apply steady_bind; [apply _|apply debate_round_grown|].
    intros [[] dr]; [apply steady_ret; apply _|apply IH].
Qed.

Lemma round_loop_total (market_data proposed_action : Value) (todo : list nat) :
  (forall n role content, is_Some (generate n role content)) ->
  (forall n speeches, is_Some (summarize n speeches)) ->
  forall debate_rounds w,
    exists out w',
      round_loop generate summarize py_str market_data proposed_action
        todo debate_rounds w = (Ok out, w').
Proof.
  intros Hgen Hsum.
  induction todo as [|round_num todo IH]; intros debate_rounds w.
  - now eexists _, _.
  - rewrite round_loop_step.
    destruct (debate_round_total round_num market_data proposed_action
                debate_rounds w Hgen Hsum) as ([[] dr] & w1 & ->);
      [now eexists _, _|apply IH].
Qed.

(** The runs of the loop that were not left through [break]: one summary
    per round, appended to the mid-term memory, the last one alone in the
    short-term memory. *)
Lemma round_loop_unbroken (market_data proposed_action : Value) (k : nat) :
  forall start debate_rounds w T w',
    round_loop generate summarize py_str market_data proposed_action
      (seq start k) debate_rounds w = (Ok (false, T), w') ->
    exists (new : list RoundEntry) (summaries : list string),
      T = (debate_rounds ++ new)%list
      /\ length new = 3 * k
      /\ length summaries = k
      /\ requests w' = requests w + 4 * k
      /\ mid_term_memory (self w')
         = (mid_term_memory (self w) ++ summaries)%list
      /\ short_term_memory (self w')
         = match last summaries with
           | Some s => [s]
           | None => short_term_memory (self w)
           end
      /\ forall j s, summaries !! j = Some s ->
           summarize (requests w + 4 * j + 3)
             (map arguments (take 3 (drop (3 * j) new))) = Some s.
Proof.
  induction k as [|k IH]; intros start debate_rounds w T w' Hrun.
  - injection Hrun as <- <-. exists [], [].
    rewrite app_nil_r. repeat split; try (simpl; lia).
    + now rewrite app_nil_r.
    + intros j s Hj. discriminate Hj.
  - cbn [seq] in Hrun. rewrite round_loop_step in Hrun.
    destruct (debate_round _ _ _ _ _ _ _ w) as [[[[] dr]|e] w1] eqn:Hround;
      try discriminate Hrun.
    apply debate_round_ok in Hround as (a & b & c & -> & _ & s & Hs & Hself & Hreq).
    apply IH in Hrun as (new & summaries & -> & Hlen & Hsums & Hreq' & Hmid & Hshort & Hall).
    eexists (_ :: _ :: _ :: new), (s :: summaries).
    split; [now rewrite <- app_assoc|].
    split; [simpl; lia|]. split; [simpl; lia|]. split; [lia|].
    split; [rewrite Hmid, Hself; cbn; now rewrite <- app_assoc|].
    split.
    { rewrite Hshort, Hself. cbn [short_term_memory].
      destruct summaries as [|s' summaries]; [reflexivity|].
      rewrite last_cons_cons.
      destruct (last (s' :: summaries)) eqn:Hlast; [reflexivity|].
      apply last_None in Hlast. discriminate Hlast. }
    intros [|j] s0 Hj.
    + injection Hj as <-. rewrite Nat.mul_0_r, Nat.add_0_r. exact Hs.
    + cbn [lookup list_lookup] in Hj. apply Hall in Hj.
      replace (3 * S j) with (3 + 3 * j) by lia.
      replace (requests w + 4 * S j + 3) with (requests w1 + 4 * j + 3) by lia.
      exact Hj.
Qed.

End Runs.

(** ** Convergence *)

Lemma converged_same (s : string) : converged [s; s; s] = true.
Proof.
  unfold converged. apply bool_decide_eq_true.
  assert (H : (list_to_set [s; s; s] : gset string) = {[ s ]}) by set_solver.
  rewrite H, size_singleton. lia.
Qed.

Lemma converged_three (a b c : string) :
  converged [a; b; c] = true -> a = b /\ b = c.
Proof.
  unfold converged. intros H. apply bool_decide_eq_true in H.
  destruct (decide (a = b)) as [->|Hab].
  - split; [reflexivity|].
    destruct (decide (b = c)) as [->|Hbc]; [reflexivity|].
    assert (Hs : (list_to_set [b; b; c] : gset string) = {[ b; c ]}) by set_solver.
    rewrite Hs, size_union, !size_singleton in H by set_solver. lia.
  - exfalso.
    assert (Hs : ({[ a; b ]} : gset string) ⊆ list_to_set [a; b; c]) by set_solver.
    apply subseteq_size in Hs.
    rewrite size_union, !size_singleton in Hs by set_solver. lia.
Qed.

Section Debate.

Variable generate : nat -> string -> string -> option string.
Variable summarize : nat -> list string -> option string.
Variable py_str : Value -> string.

(** The transcripts a debate can return: one, two or three rounds of
    three entries, every round before the last without agreement, and
    a last round before the third with agreement. *)
Lemma conduct_debate_cases (market_data proposed_action : Value)
    (w w' : World) (T : list RoundEntry) :
  _conduct_debate generate summarize py_str market_data proposed_action w
  = (Ok T, w') ->
  exists a1 a2 a3 b1 b2 b3 c1 c2 c3 : RoundEntry,
    (T = [a1; a2; a3]
     /\ converged (_extract_stances [a1; a2; a3]) = true)
    \/ (T = [a1; a2; a3; b1; b2; b3]
        /\ converged (_extract_stances [a1; a2; a3]) = false
        /\ converged (_extract_stances [b1; b2; b3]) = true)
    \/ (T = [a1; a2; a3; b1; b2; b3; c1; c2; c3]
        /\ converged (_extract_stances [a1; a2; a3]) = false
        /\ converged (_extract_stances [b1; b2; b3]) = false).
Proof.
  unfold _conduct_debate. intros Hrun.
  apply bind_ok in Hrun as ([stop T'] & w1 & Hloop & Hret).
  injection Hret as -> ->. cbn [seq debate_rounds_count] in Hloop.
  rewrite round_loop_step in Hloop.
  destruct (debate_round _ _ _ 0 _ _ _ w) as [[[stop1 dr1]|e] u1] eqn:H1;
    [|discriminate Hloop].
  apply debate_round_ok in H1 as (x1 & x2 & x3 & -> & -> & _).
  set (a1 := mkEntry _ "fundamental" x1) in *.
  set (a2 := mkEntry _ "technical" x2) in *.
  set (a3 := mkEntry _ "risk" x3) in *.
  destruct (converged (_extract_stances [a1; a2; a3])) eqn:C1.
  { injection Hloop as <- <- <-. exists a1, a2, a3, a1, a1, a1, a1, a1, a1. now left. }
  rewrite round_loop_step in Hloop.
  destruct (debate_round _ _ _ 1 _ _ _ u1) as [[[stop2 dr2]|e] u2] eqn:H2;
    [|discriminate Hloop].
  apply debate_round_ok in H2 as (y1 & y2 & y3 & -> & -> & _).
  set (b1 := mkEntry _ "fundamental" y1) in *.
  set (b2 := mkEntry _ "technical" y2) in *.
  set (b3 := mkEntry _ "risk" y3) in *.
  destruct (converged (_extract_stances [b1; b2; b3])) eqn:C2.
  { injection Hloop as <- <- <-. exists a1, a2, a3, b1, b2, b3, a1, a1, a1.
    right; left. now repeat split. }
  rewrite round_loop_step in Hloop.
  destruct (debate_round _ _ _ 2 _ _ _ u2) as [[[stop3 dr3]|e] u3] eqn:H3;
    [|discriminate Hloop].
  apply debate_round_ok in H3 as (z1 & z2 & z3 & -> & _ & _).
  exists a1, a2, a3, b1, b2, b3.
  eexists _, _, _. right; right.
  split; [|now split].
  destruct stop3; cbn [round_loop] in Hloop; injection Hloop as <- <- <-;
    reflexivity.
Qed.

(** C2. A debate returns one, two or three rounds of three entries, at
    most nine entries. When the three entries of a completed round carry
    the same stance label, whichever it is, that round is the last one of
    the transcript; so a first round of three texts that all mention
    bullish gives a transcript of exactly three entries. *)
Theorem debate_stops_on_agreement (market_data proposed_action : Value)
    (w w' : World) (T : list RoundEntry)
    (Hrun : _conduct_debate generate summarize py_str market_data
              proposed_action w = (Ok T, w')) :
  (length T = 3 \/ length T = 6 \/ length T = 9)
  /\ length T <= 9
  /\ (forall (k : nat) (s : string),
        1 <= k -> 3 * k <= length T ->
        _extract_stances (take 3 (drop (3 * (k - 1)) T)) = [s; s; s] ->
        length T = 3 * k)
  /\ (Forall (fun e => PyStr.isin "bullish" (PyStr.lower (arguments e)) = true)
        (take 3 T) ->
      length T = 3).
Proof.
  apply conduct_debate_cases in Hrun
    as (a1 & a2 & a3 & b1 & b2 & b3 & c1 & c2 & c3 & Hcases).
  assert (Hsame : forall (x y z : RoundEntry) (s : string),
            converged (_extract_stances [x; y; z]) = false ->
            _extract_stances [x; y; z] = [s; s; s] -> False).
  { intros x y z s Hc Hs. rewrite Hs, converged_same in Hc. discriminate Hc. }
  assert (Hbull : forall x y z : RoundEntry,
            Forall (fun e => PyStr.isin "bullish" (PyStr.lower (arguments e)) = true)
              [x; y; z] ->
            _extract_stances [x; y; z] = ["bullish"; "bullish"; "bullish"]).
  { intros x y z Hall.
    apply Forall_cons in Hall as [Hx Hall].
    apply Forall_cons in Hall as [Hy Hall].
    apply Forall_cons in Hall as [Hz _].
    cbn [_extract_stances]. unfold stance_of. now rewrite Hx, Hy, Hz. }
  destruct Hcases as [[-> C1]|[(-> & C1 & C2)|(-> & C1 & C2)]];
    cbn [length]; (split; [lia|]); (split; [lia|]); split.
  - intros k s Hk1 Hk2 _. lia.
  - reflexivity.
  - intros k s Hk1 Hk2 Hs.
    assert (Hk : k = 1 \/ k = 2) by lia.
    destruct Hk as [-> | ->]; [|reflexivity].
    exfalso. exact (Hsame a1 a2 a3 s C1 Hs).
  - intros Hall. exfalso. apply Hbull in Hall. exact (Hsame _ _ _ _ C1 Hall).
  - intros k s Hk1 Hk2 Hs.
    assert (Hk : k = 1 \/ k = 2 \/ k = 3) by lia.
    destruct Hk as [-> | [-> | ->]]; [| |reflexivity]; exfalso.
    + exact (Hsame a1 a2 a3 s C1 Hs).
    + exact (Hsame b1 b2 b3 s C2 Hs).
  - intros Hall. exfalso. apply Hbull in Hall. exact (Hsame _ _ _ _ C1 Hall).
Qed.

End Debate.

Lemma debate_stops_on_agreement_witness :
  _conduct_debate Examples.unanimous_panel Examples.digest Examples.opaque_str
    (VDict Examples.up_market) (VDict ∅) Examples.fresh
  = (Ok Examples.unanimous_transcript, mkWorld __init__ 3)
  /\ ((length Examples.unanimous_transcript = 3
       \/ length Examples.unanimous_transcript = 6
       \/ length Examples.unanimous_transcript = 9)
      /\ length Examples.unanimous_transcript <= 9
      /\ (forall (k : nat) (s : string),
            1 <= k -> 3 * k <= length Examples.unanimous_transcript ->
            _extract_stances
              (take 3 (drop (3 * (k - 1)) Examples.unanimous_transcript))
            = [s; s; s] ->
            length Examples.unanimous_transcript = 3 * k)
      /\ (Forall (fun e => PyStr.isin "bullish" (PyStr.lower (arguments e)) = true)
            (take 3 Examples.unanimous_transcript) ->
          length Examples.unanimous_transcript = 3)).
Proof.
  split; [vm_compute; reflexivity|].
  apply (debate_stops_on_agreement Examples.unanimous_panel Examples.digest
           Examples.opaque_str (VDict Examples.up_market) (VDict ∅)
           Examples.fresh (mkWorld __init__ 3)).
  vm_compute. reflexivity.
Defined.

(** ** The whole analysis *)

Section Analysis.

Variable generate : nat -> string -> string -> option string.
Variable summarize : nat -> list string -> option string.
Variable py_str : Value -> string.

Lemma steady_eq_grown {A} (m : M A) : steady eq m -> steady grown m.
Proof. intros H w. rewrite <- (H w). reflexivity. Qed.

Lemma conduct_debate_grown (market_data proposed_action : Value) :
  steady grown (_conduct_debate generate summarize py_str market_data proposed_action).
Proof.
  unfold _conduct_debate.
  apply steady_bind; [apply _|apply round_loop_grown|].
  intros [stop T]. apply steady_ret; apply _.
Qed.

Lemma synthesize_debate_self (debate_rounds : list RoundEntry) :
  steady eq (_synthesize_debate generate debate_rounds).
Proof. intros w. reflexivity. Qed.

Lemma analyze_grown (data : gmap string Value) :
  steady grown (analyze generate summarize py_str data).
Proof.
  unfold analyze.
  apply steady_bind; [apply _|apply conduct_debate_grown|]. intros T.
  apply steady_bind; [apply _|apply steady_eq_grown, synthesize_debate_self|].
  intros final.
  apply steady_bind; [apply _| |intros md; apply steady_ret; apply _].
  unfold as_dict.
  destruct (default _ _); (apply steady_ret || apply steady_raise); apply _.
Qed.

(** What a normal return of [analyze] holds. *)
Lemma analyze_ok (data : gmap string Value) (w w' : World)
    (result : gmap string Value) :
  analyze generate summarize py_str data w = (Ok result, w') ->
  exists (rounds : list RoundEntry) (final : string) (d : gmap string Value),
    default (VDict ∅) (data !! "market_data") = VDict d
    /\ result !! "debate_analysis" = Some (VStr final)
    /\ result !! "debate_rounds" = Some (VRounds rounds)
    /\ result !! "timestamp" = Some (default VNone (data !! "timestamp"))
    /\ result !! "confidence_score"
       = Some (VFloat (_calculate_confidence rounds d)).
Proof.
  unfold analyze. intros Hrun.
  apply bind_ok in Hrun as (rounds & w1 & _ & Hrun).
  apply bind_ok in Hrun as (final & w2 & _ & Hrun).
  apply bind_ok in Hrun as (d & w3 & Hd & Hrun).
  injection Hrun as <- <-.
  exists rounds, final, d.
  split.
  { unfold as_dict in Hd. destruct (default _ _); try discriminate Hd.
    now injection Hd as ->. }
  repeat split; now simplify_map_eq.
Qed.

Lemma analyze_total (data : gmap string Value) (w : World) :
  (forall n role content, is_Some (generate n role content)) ->
  (forall n speeches, is_Some (summarize n speeches)) ->
  (forall v, data !! "market_data" = Some v -> exists d, v = VDict d) ->
  exists result w', analyze generate summarize py_str data w = (Ok result, w').
Proof.
  intros Hgen Hsum Hmd. unfold analyze, _conduct_debate.
  rewrite !bind_run.
  destruct (round_loop_total generate summarize py_str
              (default (VDict ∅) (data !! "market_data"))
              (default (VDict ∅) (data !! "proposed_action"))
              (seq 0 debate_rounds_count) Hgen Hsum [] w) as ([stop T] & w1 & ->).
  cbn [mret M_ret ret].
  unfold _synthesize_debate. rewrite !bind_run. cbn [get_self].
  unfold _create_prompt.
  destruct (Hgen (requests w1) synthesis_role
    (synth_head +:+ _get_mid_term_info (self w1) +:+ synth_short
       +:+ _get_short_term_info (self w1) +:+ synth_history
       +:+ _format_previous_rounds T +:+ synth_tail)) as [final ->].
  destruct (data !! "market_data") as [v|] eqn:Hv.
  - destruct (Hmd v eq_refl) as [d ->]. now eexists _, _.
  - now eexists _, _.
Qed.

(** A generator that is out of service stops the analysis at its first
    request, and the instance is left as it was. *)
Example generation_failure_propagates :
  analyze Examples.no_service Examples.digest Examples.opaque_str
    Examples.request Examples.fresh
  = (Raise GenerationFailure, mkWorld __init__ 1).
Proof. reflexivity. Qed.

(** C3. The score is a number of the unit interval, whatever the
    transcript and the market data; every dictionary [analyze] returns
    holds it under the key [confidence_score], computed from the rounds it
    returns; and [analyze] does return when the generator and the
    summarizer answer and the market data, if given, is a dictionary. *)
Theorem confidence_score_in_unit_interval (debate_rounds : list RoundEntry)
    (market_data data : gmap string Value) (w : World) :
  (PyFloat.le 0.0 (_calculate_confidence debate_rounds market_data)
   /\ PyFloat.le (_calculate_confidence debate_rounds market_data) 1.0)
  /\ match analyze generate summarize py_str data w with
     | (Ok result, _) =>
         exists (rounds : list RoundEntry) (d : gmap string Value) (c : float),
           result !! "debate_rounds" = Some (VRounds rounds)
           /\ default (VDict ∅) (data !! "market_data") = VDict d
           /\ c = _calculate_confidence rounds d
           /\ result !! "confidence_score" = Some (VFloat c)
           /\ PyFloat.le 0.0 c /\ PyFloat.le c 1.0
     | (Raise _, _) => True
     end
  /\ ((forall n role content, is_Some (generate n role content)) ->
      (forall n speeches, is_Some (summarize n speeches)) ->
      (forall v, data !! "market_data" = Some v -> exists d, v = VDict d) ->
      exists result w',
        analyze generate summarize py_str data w = (Ok result, w')).
Proof.
  assert (Hunit : forall t md,
            PyFloat.le 0.0 (_calculate_confidence t md)
            /\ PyFloat.le (_calculate_confidence t md) 1.0).
  { intros t md. unfold _calculate_confidence.
    destruct (raw_confidence_facts t md) as (_ & _ & H0 & H1 & ->). now split. }
  split; [apply Hunit|]. split; [|apply analyze_total].
  destruct (analyze generate summarize py_str data w) as [[result|e] w'] eqn:Hrun;
    [|exact I].
  apply analyze_ok in Hrun as (rounds & final & d & Hd & _ & Hrounds & _ & Hscore).
  exists rounds, d, (_calculate_confidence rounds d).
  destruct (Hunit rounds d) as [H0 H1]. now repeat split.
Qed.

(** C1, as the code has it. A new instance has both memories empty, and
    [analyze] never empties them: a call leaves the instance as it found
    it, or with the mid-term memory it found extended by the summaries of
    the call and the last summary alone in the short-term memory. The
    mid-term memory a call starts with is therefore a prefix of the one
    the next call starts with. *)
Theorem analyze_keeps_memory (data : gmap string Value) (w : World) :
  mid_term_memory __init__ = [] /\ short_term_memory __init__ = []
  /\ (let a := self w in
      let a' := self (snd (analyze generate summarize py_str data w)) in
      a' = a
      \/ exists (earlier : list string) (s : string),
           mid_term_memory a' = (mid_term_memory a ++ earlier ++ [s])%list
           /\ short_term_memory a' = [s])
  /\ mid_term_memory (self w)
     `prefix_of` mid_term_memory (self (snd (analyze generate summarize py_str data w))).
Proof.
  do 2 (split; [reflexivity|]).
  pose proof (analyze_grown data w) as Hgrown.
  split; [exact Hgrown|].
  destruct Hgrown as [->|(earlier & s & -> & _)]; [reflexivity|].
  now apply prefix_app_r.
Qed.

(** C8, as the code has it. When the first [k] rounds of a debate all end
    without agreement, the short-term memory holds one element, the
    summary of round [k], and the mid-term memory holds what it held when
    the debate started followed by the summaries of rounds 1 to [k] in
    order: [k] entries more, and [k] entries in all when it was empty at
    the start. Each summary is the answer of the summarizer to the three
    texts of its round, and the loop goes on from this state. *)
Theorem memory_after_rounds (market_data proposed_action : Value) (k : nat)
    (w w' : World) (T : list RoundEntry)
    (Hk : 1 <= k)
    (Hrun : round_loop generate summarize py_str market_data proposed_action
              (seq 0 k) [] w = (Ok (false, T), w')) :
  exists (summaries : list string) (s : string),
    length summaries = k
    /\ last summaries = Some s
    /\ short_term_memory (self w') = [s]
    /\ mid_term_memory (self w') = (mid_term_memory (self w) ++ summaries)%list
    /\ length (mid_term_memory (self w')) = length (mid_term_memory (self w)) + k
    /\ length T = 3 * k
    /\ (forall j s', summaries !! j = Some s' ->
          summarize (requests w + 4 * j + 3)
            (map arguments (take 3 (drop (3 * j) T))) = Some s')
    /\ (k <= debate_rounds_count ->
        round_loop generate summarize py_str market_data proposed_action
          (seq 0 debate_rounds_count) [] w
        = round_loop generate summarize py_str market_data proposed_action
            (seq k (debate_rounds_count - k)) T w').
Proof.
  pose proof Hrun as Hrun'.
  apply round_loop_unbroken in Hrun'
    as (new & summaries & HT & Hlen & Hsums & _ & Hmid & Hshort & Hall).
  cbn [app] in HT. subst new.
  destruct (last summaries) as [s|] eqn:Hlast.
  2:{ apply last_None in Hlast. subst summaries. simpl in Hsums. lia. }
  exists summaries, s.
  split; [exact Hsums|]. split; [exact Hlast|]. split; [exact Hshort|].
  split; [exact Hmid|].
  split; [rewrite Hmid, length_app; lia|].
  split; [exact Hlen|]. split; [exact Hall|].
  intros Hle.
  replace debate_rounds_count with (k + (debate_rounds_count - k)) at 1 by lia.
  rewrite seq_app, round_loop_app, Hrun. reflexivity.
Qed.

End Analysis.

Lemma confidence_score_in_unit_interval_witness :
  (forall n role content, is_Some (Examples.stubborn_panel n role content))
  /\ (forall n speeches, is_Some (Examples.digest n speeches))
  /\ (forall v, Examples.request !! "market_data" = Some v -> exists d, v = VDict d)
  /\ exists result w',
       analyze Examples.stubborn_panel Examples.digest Examples.opaque_str
         Examples.request Examples.fresh = (Ok result, w').
Proof.
  assert (H1 : forall n role content,
            is_Some (Examples.stubborn_panel n role content))
    by (intros n role content; eexists; reflexivity).
  assert (H2 : forall n speeches, is_Some (Examples.digest n speeches))
    by (intros n speeches; eexists; reflexivity).
  assert (H3 : forall v, Examples.request !! "market_data" = Some v ->
                         exists d, v = VDict d).
  { intros v Hv. exists Examples.up_market. unfold Examples.request in Hv.
    rewrite lookup_insert_eq in Hv. congruence. }
  do 3 (split; [assumption|]).
  exact (proj2 (proj2 (confidence_score_in_unit_interval
           Examples.stubborn_panel Examples.digest Examples.opaque_str
           [] ∅ Examples.request Examples.fresh)) H1 H2 H3).
Defined.

(** Counterexample to C1 as stated: after one analysis with analysts who never agree
    the instance holds three summaries, the second analysis builds its
    first prompt from them and ends with six. *)
Lemma second_analyze_inherits_memory :
  snd (analyze Examples.stubborn_panel Examples.digest Examples.opaque_str
         Examples.request Examples.fresh)
  = Examples.after_first_analysis
  /\ mid_term_memory (self Examples.after_first_analysis) <> []
  /\ short_term_memory (self Examples.after_first_analysis) <> []
  /\ PyStr.isin "No mid-term memory recorded."
       (round_content Examples.opaque_str 0 "fundamental"
          (VDict Examples.up_market) (VDict ∅)
          (self Examples.after_first_analysis) []) = false
  /\ length (mid_term_memory (self (snd
       (analyze Examples.stubborn_panel Examples.digest Examples.opaque_str
          Examples.request Examples.after_first_analysis)))) = 6.
Proof.
  split; [vm_compute; reflexivity|].
  split; [discriminate|]. split; [discriminate|].
  split; vm_compute; reflexivity.
Qed.

Lemma memory_after_rounds_witness :
  1 <= 2
  /\ round_loop Examples.stubborn_panel Examples.digest Examples.opaque_str
       (VDict Examples.up_market) (VDict ∅) (seq 0 2) [] Examples.fresh
     = (Ok (false, Examples.two_rounds_transcript), Examples.after_two_rounds)
  /\ exists (summaries : list string) (s : string),
       length summaries = 2
       /\ last summaries = Some s
       /\ short_term_memory (self Examples.after_two_rounds) = [s]
       /\ mid_term_memory (self Examples.after_two_rounds)
          = (mid_term_memory (self Examples.fresh) ++ summaries)%list.
Proof.
  split; [lia|]. split; [vm_compute; reflexivity|].
  destruct (memory_after_rounds Examples.stubborn_panel Examples.digest
              Examples.opaque_str (VDict Examples.up_market) (VDict ∅) 2
              Examples.fresh Examples.after_two_rounds
              Examples.two_rounds_transcript)
    as (summaries & s & H1 & H2 & H3 & H4 & _);
    [lia|vm_compute; reflexivity|].
  now exists summaries, s.
Defined.

(** Counterexample to C8 as stated: in a second debate on the same instance the
    mid-term memory holds four entries after the first round. *)
Lemma stale_memory_after_round :
  exists (T : list RoundEntry) (w' : World),
    round_loop Examples.stubborn_panel Examples.digest Examples.opaque_str
      (VDict Examples.up_market) (VDict ∅) (seq 0 1) []
      Examples.after_first_analysis = (Ok (false, T), w')
    /\ length (mid_term_memory (self w')) = 4
    /\ length (short_term_memory (self w')) = 1.
Proof.
  eexists _, _. split; [vm_compute; reflexivity|].
  split; reflexivity.
Qed.

(** * Further properties *)

(** ** The score *)

Section MoreConfidence.

Local Open Scope Z_scope.

Lemma check_pairwise_sym (text_a text_b : string) :
  check_pairwise text_a text_b = check_pairwise text_b text_a.
Proof.
  rewrite !check_pairwise_counts.
  destruct (PyStr.isin "mild increase" text_a), (PyStr.isin "mild increase" text_b),
    (PyStr.isin "low risk" text_a), (PyStr.isin "low risk" text_b),
    (PyStr.isin "high risk" text_a), (PyStr.isin "high risk" text_b),
    (PyStr.isin "downward pressure" text_a), (PyStr.isin "upward momentum" text_b),
    (PyStr.isin "downward pressure" text_b), (PyStr.isin "upward momentum" text_a);
    reflexivity.
Qed.

Lemma pair_totals_swap12 (f t r : string) : pair_totals t f r = pair_totals f t r.
Proof.
  rewrite !pair_totals_sum, (check_pairwise_sym t f).
  f_equal; lia.
Qed.

Lemma pair_totals_swap23 (f t r : string) : pair_totals f r t = pair_totals f t r.
Proof.
  rewrite !pair_totals_sum, (check_pairwise_sym r t).
  f_equal; lia.
Qed.

Lemma crossing_bonus_swap12 (f t r : string) :
  crossing_bonus t f r = crossing_bonus f t r.
Proof.
  unfold crossing_bonus.
  destruct (PyStr.isin crossing f), (PyStr.isin crossing t), (PyStr.isin crossing r);
    reflexivity.
Qed.

Lemma crossing_bonus_swap23 (f t r : string) :
  crossing_bonus f r t = crossing_bonus f t r.
Proof.
  unfold crossing_bonus.
  destruct (PyStr.isin crossing f), (PyStr.isin crossing t), (PyStr.isin crossing r);
    reflexivity.
Qed.

Lemma args_of_cons (who : string) (e : RoundEntry) (t : list RoundEntry) :
  args_of who (e :: t)
  = if decide (perspective e = who) then arguments e :: args_of who t
    else args_of who t.
Proof.
  unfold args_of. rewrite filter_cons. now case_decide.
Qed.

Lemma args_of_exchange_l (p q : string) (t : list RoundEntry) :
  p <> q -> args_of p (map (exchange p q) t) = args_of q t.
Proof.
  intros Hpq. induction t as [|e t IH]; [reflexivity|].
  cbn [map]. rewrite !args_of_cons, IH. unfold exchange.
  repeat (case_decide; cbn [perspective arguments] in *); congruence.
Qed.

Lemma args_of_exchange_r (p q : string) (t : list RoundEntry) :
  p <> q -> args_of q (map (exchange p q) t) = args_of p t.
Proof.
  intros Hpq. induction t as [|e t IH]; [reflexivity|].
  cbn [map]. rewrite !args_of_cons, IH. unfold exchange.
  repeat (case_decide; cbn [perspective arguments] in *); congruence.
Qed.

Lemma args_of_exchange_other (p q who : string) (t : list RoundEntry) :
  who <> p -> who <> q -> args_of who (map (exchange p q) t) = args_of who t.
Proof.
  intros Hp Hq. induction t as [|e t IH]; [reflexivity|].
  cbn [map]. rewrite !args_of_cons, IH. unfold exchange.
  repeat (case_decide; cbn [perspective arguments] in *); congruence.
Qed.

Lemma role_text_exchange_l (p q : string) (t : list RoundEntry) :
  p <> q -> role_text p (map (exchange p q) t) = role_text q t.
Proof. intros H. unfold role_text. now rewrite args_of_exchange_l. Qed.

Lemma role_text_exchange_r (p q : string) (t : list RoundEntry) :
  p <> q -> role_text q (map (exchange p q) t) = role_text p t.
Proof. intros H. unfold role_text. now rewrite args_of_exchange_r. Qed.

Lemma role_text_exchange_other (p q who : string) (t : list RoundEntry) :
  who <> p -> who <> q -> role_text who (map (exchange p q) t) = role_text who t.
Proof. intros Hp Hq. unfold role_text. now rewrite args_of_exchange_other. Qed.

(** X1. The signals of a pair do not depend on the order of its two
    texts, and the score does not depend on which analyst said what:
    exchanging the perspectives of two analysts throughout a transcript
    leaves the score unchanged. *)
Theorem confidence_symmetric_in_roles (text_a text_b : string)
    (debate_rounds : list RoundEntry) (market_data : gmap string Value) :
  check_pairwise text_a text_b = check_pairwise text_b text_a
  /\ _calculate_confidence (map (exchange "fundamental" "technical") debate_rounds)
       market_data
     = _calculate_confidence debate_rounds market_data
  /\ _calculate_confidence (map (exchange "fundamental" "risk") debate_rounds)
       market_data
     = _calculate_confidence debate_rounds market_data
  /\ _calculate_confidence (map (exchange "technical" "risk") debate_rounds)
       market_data
     = _calculate_confidence debate_rounds market_data.
Proof.
  split; [apply check_pairwise_sym|].
  unfold _calculate_confidence, raw_confidence.
  repeat split.
  - rewrite role_text_exchange_l, role_text_exchange_r,
      role_text_exchange_other by discriminate.
    now rewrite pair_totals_swap12, crossing_bonus_swap12.
  - rewrite role_text_exchange_l, role_text_exchange_r,
      role_text_exchange_other by discriminate.
    set (f := role_text "fundamental" debate_rounds).
    set (t := role_text "technical" debate_rounds).
    set (r := role_text "risk" debate_rounds).
    rewrite (pair_totals_swap12 t r f), (pair_totals_swap23 t f r),
      (pair_totals_swap12 f t r).
    rewrite (crossing_bonus_swap12 t r f), (crossing_bonus_swap23 t f r),
      (crossing_bonus_swap12 f t r).
    reflexivity.
  - rewrite role_text_exchange_l, role_text_exchange_r,
      role_text_exchange_other by discriminate.
    now rewrite pair_totals_swap23, crossing_bonus_swap23.
Qed.

Lemma args_of_known (who : string) (t : list RoundEntry) :
  who = "fundamental" \/ who = "technical" \/ who = "risk" ->
  args_of who (filter known_perspective t) = args_of who t.
Proof.
  intros Hwho. unfold args_of. f_equal.
  rewrite list_filter_filter. apply list_filter_iff.
  intros e. unfold known_perspective. split; [tauto|].
  intros He. split; [exact He|]. rewrite He. exact Hwho.
Qed.

(** X2. Only the entries of the three analysts count: entries with any
    other perspective, a differently capitalised one included, can be
    removed from or added to a transcript without changing the score. *)
Theorem confidence_ignores_other_perspectives (debate_rounds : list RoundEntry)
    (market_data : gmap string Value) :
  _calculate_confidence (filter known_perspective debate_rounds) market_data
  = _calculate_confidence debate_rounds market_data
  /\ _calculate_confidence
       (mkEntry 1 "Fundamental" "mild increase, low risk" :: debate_rounds)
       market_data
     = _calculate_confidence debate_rounds market_data.
Proof.
  unfold _calculate_confidence. split.
  - rewrite (confidence_of_role_texts (filter known_perspective debate_rounds)
               debate_rounds market_data); [reflexivity|..];
      apply args_of_known; tauto.
  - rewrite (confidence_of_role_texts
               (mkEntry 1 "Fundamental" "mild increase, low risk" :: debate_rounds)
               debate_rounds market_data); reflexivity.
Qed.

(** The three trend bases compared on the same totals, and the least
    score. *)
Lemma adjust_order (agreements disagreements : Z) (bonus : bool) :
  0 <= agreements <= 6 -> 0 <= disagreements <= 5 ->
  PrimFloat.ltb (adjust (0.5 - 0.05)%float agreements disagreements bonus)
                (adjust (0.5 - 0.02)%float agreements disagreements bonus) = true
  /\ PrimFloat.ltb (adjust (0.5 - 0.02)%float agreements disagreements bonus)
                   (adjust (0.5 + 0.1)%float agreements disagreements bonus) = true
  /\ PyFloat.le 0.2 (adjust (0.5 - 0.05)%float agreements disagreements bonus)
  /\ PyFloat.le 0.2 (adjust (0.5 - 0.02)%float agreements disagreements bonus)
  /\ PyFloat.le 0.2 (adjust (0.5 + 0.1)%float agreements disagreements bonus).
Proof.
  intros HA HD.
  apply small_total in HA; [|lia].
  assert (HD' : disagreements = 0 \/ disagreements = 1 \/ disagreements = 2
                \/ disagreements = 3 \/ disagreements = 4 \/ disagreements = 5) by lia.
  clear HD.
  destruct HA as [->|[->|[->|[->|[->|[->| ->]]]]]];
    destruct HD' as [->|[->|[->|[->|[->| ->]]]]];
    destruct bonus; vm_compute; repeat split; reflexivity.
Qed.

Lemma trend_confidence_up (market_data : gmap string Value) :
  trend_confidence (<["trend" := VStr "up"]> market_data) = (0.5 + 0.1)%float.
Proof. unfold trend_confidence. now rewrite lookup_insert_eq. Qed.

Lemma trend_confidence_down (market_data : gmap string Value) :
  trend_confidence (<["trend" := VStr "down"]> market_data) = (0.5 - 0.05)%float.
Proof. unfold trend_confidence. now rewrite lookup_insert_eq. Qed.

Lemma trend_confidence_missing (market_data : gmap string Value) :
  trend_confidence (delete "trend" market_data) = (0.5 - 0.02)%float.
Proof. unfold trend_confidence. now rewrite lookup_delete_eq. Qed.

Lemma calculate_confidence_raw (debate_rounds : list RoundEntry)
    (market_data : gmap string Value) :
  _calculate_confidence debate_rounds market_data
  = raw_confidence debate_rounds market_data.
Proof.
  unfold _calculate_confidence.
  now destruct (raw_confidence_facts debate_rounds market_data) as (_ & _ & _ & _ & ->).
Qed.

(** X3. On the same transcript a down trend scores strictly less than a
    missing trend, which scores strictly less than an up trend. *)
Theorem trend_orders_scores (debate_rounds : list RoundEntry)
    (market_data : gmap string Value) :
  PrimFloat.ltb
    (_calculate_confidence debate_rounds (<["trend" := VStr "down"]> market_data))
    (_calculate_confidence debate_rounds (delete "trend" market_data)) = true
  /\ PrimFloat.ltb
       (_calculate_confidence debate_rounds (delete "trend" market_data))
       (_calculate_confidence debate_rounds (<["trend" := VStr "up"]> market_data))
     = true.
Proof.
  rewrite !calculate_confidence_raw. unfold raw_confidence.
  rewrite trend_confidence_up, trend_confidence_down, trend_confidence_missing.
  pose proof (pair_totals_range (role_text "fundamental" debate_rounds)
    (role_text "technical" debate_rounds) (role_text "risk" debate_rounds)) as [HA HD].
  destruct (pair_totals _ _ _) as [agreements disagreements].
  destruct (adjust_order agreements disagreements
              (crossing_bonus (role_text "fundamental" debate_rounds)
                 (role_text "technical" debate_rounds)
                 (role_text "risk" debate_rounds)) HA HD) as (H1 & H2 & _).
  now split.
Qed.

(** X4. The score never leaves the interval from 0.2 to 0.93, because the
    three pairs can count at most five disagreements; both ends are
    reached. *)
Theorem confidence_tight_bounds (debate_rounds : list RoundEntry)
    (market_data : gmap string Value) :
  snd (pair_totals (role_text "fundamental" debate_rounds)
         (role_text "technical" debate_rounds)
         (role_text "risk" debate_rounds)) <= 5
  /\ PyFloat.le 0.2 (_calculate_confidence debate_rounds market_data)
  /\ PyFloat.le (_calculate_confidence debate_rounds market_data) 0.93
  /\ _calculate_confidence quarrel {[ "trend" := VStr "down" ]} = 0.2%float
  /\ _calculate_confidence chorus {[ "trend" := VStr "up" ]} = 0.93%float.
Proof.
  split; [apply pair_totals_range|].
  split; [|split; [|split; reflexivity]].
  - rewrite calculate_confidence_raw. unfold raw_confidence.
    pose proof (pair_totals_range (role_text "fundamental" debate_rounds)
      (role_text "technical" debate_rounds) (role_text "risk" debate_rounds)) as [HA HD].
    destruct (pair_totals _ _ _) as [agreements disagreements].
    destruct (adjust_order agreements disagreements
                (crossing_bonus (role_text "fundamental" debate_rounds)
                   (role_text "technical" debate_rounds)
                   (role_text "risk" debate_rounds)) HA HD) as (_ & _ & L1 & L2 & L3).
    destruct (trend_confidence_cases market_data) as [->|[->| ->]]; assumption.
  - rewrite calculate_confidence_raw.
    apply (raw_confidence_facts debate_rounds market_data).
Qed.

End MoreConfidence.

(** ** Texts, stances and formatting *)

Lemma append_cons (c : ascii) (a b : string) :
  String c a +:+ b = String c (a +:+ b).
Proof. reflexivity. Qed.

Lemma append_assoc (a b c : string) : (a +:+ b) +:+ c = a +:+ (b +:+ c).
Proof.
  induction a as [|x a IH]; [reflexivity|].
  rewrite !append_cons. now rewrite IH.
Qed.

Lemma append_nil (b : string) : EmptyString +:+ b = b.
Proof. reflexivity. Qed.

Lemma prefix_app_l (needle a b : string) :
  String.prefix needle a = true -> String.prefix needle (a +:+ b) = true.
Proof.
  revert a. induction needle as [|c needle IH]; intros a H.
  - destruct a, b; reflexivity.
  - destruct a as [|c' a]; [discriminate H|].
    rewrite append_cons. cbn [String.prefix] in *.
    destruct (Ascii.ascii_dec c c'); [now apply IH|discriminate H].
Qed.

Lemma isin_app_l (needle a b : string) :
  PyStr.isin needle a = true -> PyStr.isin needle (a +:+ b) = true.
Proof.
  induction a as [|c a IH]; intros H.
  - cbn [PyStr.isin] in H. rewrite orb_false_r in H.
    destruct needle; [|discriminate H]. destruct b; reflexivity.
  - cbn [PyStr.isin] in H. apply orb_true_iff in H as [H|H].
    + apply (prefix_app_l needle (String c a) b) in H.
      rewrite append_cons in *. cbn [PyStr.isin]. now rewrite H.
    + rewrite append_cons. cbn [PyStr.isin]. rewrite (IH H). apply orb_true_r.
Qed.

Lemma isin_app_r (needle a b : string) :
  PyStr.isin needle b = true -> PyStr.isin needle (a +:+ b) = true.
Proof.
  intros H. induction a as [|c a IH]; [exact H|].
  rewrite append_cons. cbn [PyStr.isin]. rewrite IH. apply orb_true_r.
Qed.

Lemma lower_app (a b : string) :
  PyStr.lower (a +:+ b) = PyStr.lower a +:+ PyStr.lower b.
Proof.
  unfold PyStr.lower. induction a as [|c a IH]; [reflexivity|].
  rewrite append_cons. cbn [PyStr.map_chars]. now rewrite append_cons, IH.
Qed.

Lemma stance_bullish (text : string) :
  stance_of text = "bullish" <-> PyStr.isin "bullish" (PyStr.lower text) = true.
Proof.
  unfold stance_of.
  destruct (PyStr.isin "bullish" _); [easy|].
  destruct (PyStr.isin "bearish" _); split; discriminate.
Qed.

(** X5. A text that the classifier finds bullish stays bullish whatever
    is written before or after it; in particular any text that goes on to
    mention bullish is bullish, also when it is bearish up to there. *)
Theorem bullish_survives_context (before text after : string)
    (Hbull : stance_of text = "bullish") :
  stance_of (before +:+ text +:+ after) = "bullish".
Proof.
  apply stance_bullish. apply stance_bullish in Hbull.
  rewrite !lower_app. apply isin_app_r, isin_app_l, Hbull.
Qed.

Lemma bullish_survives_context_witness :
  stance_of "we turn bullish" = "bullish"
  /\ stance_of ("Bearish for now, but " +:+ "we turn bullish" +:+ " next quarter.")
     = "bullish".
Proof.
  split; [reflexivity|].
  apply (bullish_survives_context "Bearish for now, but " "we turn bullish"
           " next quarter."). reflexivity.
Defined.

(** X6. The verdict [len(set(stances)) <= 1] holds exactly when all the
    entries of the round carry the same label; a round without entries
    passes it. *)
Theorem converged_iff_same_stance (round_data : list RoundEntry) :
  converged (_extract_stances round_data) = true
  <-> forall e e', e ∈ round_data -> e' ∈ round_data ->
        stance_of (arguments e) = stance_of (arguments e').
Proof.
  rewrite extract_stances_map. unfold converged. rewrite bool_decide_eq_true.
  split.
  - intros Hsize e e' He He'.
    destruct (decide (stance_of (arguments e) = stance_of (arguments e')))
      as [|Hne]; [assumption|exfalso].
    assert (Hsub : ({[ stance_of (arguments e); stance_of (arguments e') ]}
                    : gset string)
                   ⊆ list_to_set (map (fun r => stance_of (arguments r)) round_data)).
    { intros s Hs. apply elem_of_list_to_set, list_elem_of_fmap.
      apply elem_of_union in Hs as [Hs|Hs]; apply elem_of_singleton in Hs;
        subst s; eauto. }
    apply subseteq_size in Hsub.
    rewrite size_union, !size_singleton in Hsub by set_solver. lia.
  - intros Hsame. destruct round_data as [|e0 rest]; [cbn; rewrite size_empty; lia|].
    assert (Hsub : (list_to_set (map (fun r => stance_of (arguments r)) (e0 :: rest))
                    : gset string) ⊆ {[ stance_of (arguments e0) ]}).
    { intros s Hs. apply elem_of_list_to_set, list_elem_of_fmap in Hs
        as (e & -> & He).
      apply elem_of_singleton, Hsame; [exact He|left]. }
    apply subseteq_size in Hsub. now rewrite size_singleton in Hsub.
Qed.

Lemma join_app (sep : string) (l1 l2 : list string) :
  l1 <> [] -> l2 <> [] ->
  PyStr.join sep (l1 ++ l2) = PyStr.join sep l1 +:+ sep +:+ PyStr.join sep l2.
Proof.
  intros H1 H2. induction l1 as [|p l1 IH]; [congruence|].
  destruct l1 as [|q l1].
  - destruct l2 as [|r l2]; [congruence|]. reflexivity.
  - change ((p :: q :: l1) ++ l2)%list with (p :: q :: (l1 ++ l2))%list.
    rewrite !join_cons2.
    change (q :: (l1 ++ l2))%list with ((q :: l1) ++ l2)%list.
    rewrite IH by discriminate.
    now rewrite !append_assoc.
Qed.

(** X7. The formatted text of a transcript is the sentinel only for the
    empty transcript: every other one starts with the word Round. *)
Theorem format_sentinel_iff_empty (debate_rounds : list RoundEntry) :
  _format_previous_rounds debate_rounds = "No previous arguments."
  <-> debate_rounds = [].
Proof.
  split; [|now intros ->].
  destruct debate_rounds as [|e [|e' rest]]; [reflexivity| |]; intros H; exfalso.
  - cbn in H. discriminate H.
  - unfold _format_previous_rounds in H. cbn [map] in H.
    rewrite join_cons2 in H. cbn in H. discriminate H.
Qed.

(** X8. Formatting follows concatenation: the text of two transcripts
    put end to end is the two texts joined by a line break. *)
Theorem format_previous_rounds_app (t1 t2 : list RoundEntry)
    (H1 : t1 <> []) (H2 : t2 <> []) :
  _format_previous_rounds (t1 ++ t2)
  = _format_previous_rounds t1 +:+ PyStr.nl +:+ _format_previous_rounds t2.
Proof.
  unfold _format_previous_rounds.
  destruct t1 as [|a t1]; [congruence|]. destruct t2 as [|b t2]; [congruence|].
  change ((a :: t1) ++ b :: t2)%list with (a :: (t1 ++ b :: t2))%list. cbv iota.
  change (a :: (t1 ++ b :: t2))%list with ((a :: t1) ++ b :: t2)%list.
  rewrite map_app. apply join_app; discriminate.
Qed.

Lemma format_previous_rounds_app_witness :
  Examples.unanimous_transcript <> [] /\ two_part_transcript <> []
  /\ _format_previous_rounds (Examples.unanimous_transcript ++ two_part_transcript)
     = _format_previous_rounds Examples.unanimous_transcript +:+ PyStr.nl
         +:+ _format_previous_rounds two_part_transcript.
Proof.
  split; [discriminate|]. split; [discriminate|].
  apply (format_previous_rounds_app Examples.unanimous_transcript two_part_transcript);
    discriminate.
Defined.

(** ** The application's time frames *)

Lemma lower_char_idem (c : ascii) :
  PyStr.lower_char (PyStr.lower_char c) = PyStr.lower_char c.
Proof. destruct c as [[] [] [] [] [] [] [] []]; reflexivity. Qed.

Lemma lower_idem (s : string) : PyStr.lower (PyStr.lower s) = PyStr.lower s.
Proof.
  unfold PyStr.lower. induction s as [|c s IH]; [reflexivity|].
  cbn [PyStr.map_chars]. now rewrite lower_char_idem, IH.
Qed.

(** X9. [parse_timeframe_to_days] answers with a number of days between
    1 and 365 for every text: 1, 7, 14, 30, 90, 180 and 365 when the
    lower-cased text is the day, the week, the fortnight, the month, the
    quarter, the half year and the year, and 30 for every other text;
    the same answer for a text and its lower-cased form. *)
Theorem parse_timeframe_range (timeframe : string) :
  (1 <= parse_timeframe_to_days timeframe <= 365)%Z
  /\ (parse_timeframe_to_days timeframe = 30%Z
      \/ (PyStr.lower timeframe, parse_timeframe_to_days timeframe)
         ∈ [ ("1d", 1%Z); ("1w", 7%Z); ("2w", 14%Z);
             ("3m", 90%Z); ("6m", 180%Z); ("1y", 365%Z) ])
  /\ parse_timeframe_to_days (PyStr.lower timeframe)
     = parse_timeframe_to_days timeframe
  /\ parse_timeframe_to_days "1W" = 7%Z
  /\ parse_timeframe_to_days "" = 30%Z
  /\ (PyStr.lower timeframe = "1d" -> parse_timeframe_to_days timeframe = 1%Z)
  /\ (PyStr.lower timeframe = "1w" -> parse_timeframe_to_days timeframe = 7%Z)
  /\ (PyStr.lower timeframe = "2w" -> parse_timeframe_to_days timeframe = 14%Z)
  /\ (PyStr.lower timeframe = "1m" -> parse_timeframe_to_days timeframe = 30%Z)
  /\ (PyStr.lower timeframe = "3m" -> parse_timeframe_to_days timeframe = 90%Z)
  /\ (PyStr.lower timeframe = "6m" -> parse_timeframe_to_days timeframe = 180%Z)
  /\ (PyStr.lower timeframe = "1y" -> parse_timeframe_to_days timeframe = 365%Z)
  /\ (PyStr.lower timeframe ∉ ["1d"; "1w"; "2w"; "1m"; "3m"; "6m"; "1y"] ->
      parse_timeframe_to_days timeframe = 30%Z)
  /\ map parse_timeframe_to_days
       ["1d"; "1D"; "1w"; "2w"; "2W"; "1m"; "1M"; "3m"; "3M"; "6m"; "6M";
        "1y"; "1Y"; "5y"; "week"]
     = [1; 1; 7; 14; 14; 30; 30; 90; 90; 180; 180; 365; 365; 30; 30]%Z.
Proof.
  split; [|split; [|split; [|split; [|split]]]]; [| | |reflexivity|reflexivity|].
  - unfold parse_timeframe_to_days.
    repeat (destruct (String.eqb _ _); [lia|]). lia.
  - unfold parse_timeframe_to_days.
    repeat match goal with
           | |- context [String.eqb ?a ?b] =>
               destruct (String.eqb_spec a b) as [->|_]
           end;
      try (now left); right; set_solver.
  - unfold parse_timeframe_to_days. now rewrite lower_idem.
  - unfold parse_timeframe_to_days.
    repeat (split; [now intros ->|]).
    split; [|reflexivity].
    intros Hnot.
    repeat match goal with
           | |- context [String.eqb ?a ?b] =>
               destruct (String.eqb_spec a b) as [Heq|_];
               [exfalso; apply Hnot; rewrite Heq; set_solver|]
           end.
    reflexivity.
Qed.

(** ** More on the runs of a debate *)

Section MoreRuns.

Variable generate : nat -> string -> string -> option string.
Variable summarize : nat -> list string -> option string.
Variable py_str : Value -> string.

Lemma bind_raise {A B} (m : M A) (k : A -> M B) (w w' : World) (e : exn) :
  (m ≫= k) w = (Raise e, w') ->
  m w = (Raise e, w')
  \/ exists a w1, m w = (Ok a, w1) /\ k a w1 = (Raise e, w').
Proof.
  rewrite bind_run. destruct (m w) as [[a|e0] w1]; intros H.
  - right. now exists a, w1.
  - left. now injection H as -> ->.
Qed.



End MoreRuns.


Section Traces.

Variable generate : nat -> string -> string -> option string.
Variable summarize : nat -> list string -> option string.
Variable py_str : Value -> string.

(** The four ways a debate ends normally, with the memory and the number
    of requests at the end. *)
Lemma conduct_debate_trace (market_data proposed_action : Value)
    (w w' : World) (T : list RoundEntry) :
  _conduct_debate generate summarize py_str market_data proposed_action w
  = (Ok T, w') ->
  exists x1 x2 x3 y1 y2 y3 z1 z2 z3 s1 s2 s3 : string,
    let r1 := [ mkEntry 1 "fundamental" x1; mkEntry 1 "technical" x2;
                mkEntry 1 "risk" x3 ] in
    let r2 := [ mkEntry 2 "fundamental" y1; mkEntry 2 "technical" y2;
                mkEntry 2 "risk" y3 ] in
    let r3 := [ mkEntry 3 "fundamental" z1; mkEntry 3 "technical" z2;
                mkEntry 3 "risk" z3 ] in
    let mid := mid_term_memory (self w) in
    (T = r1 /\ converged (_extract_stances r1) = true
     /\ self w' = self w /\ requests w' = requests w + 3)
    \/ (T = (r1 ++ r2)%list
        /\ converged (_extract_stances r1) = false
        /\ converged (_extract_stances r2) = true
        /\ self w' = mkAgent (mid ++ [s1]) [s1]
        /\ requests w' = requests w + 7)
    \/ (T = (r1 ++ r2 ++ r3)%list
        /\ converged (_extract_stances r1) = false
        /\ converged (_extract_stances r2) = false
        /\ converged (_extract_stances r3) = true
        /\ self w' = mkAgent (mid ++ [s1; s2]) [s2]
        /\ requests w' = requests w + 11)
    \/ (T = (r1 ++ r2 ++ r3)%list
        /\ converged (_extract_stances r1) = false
        /\ converged (_extract_stances r2) = false
        /\ converged (_extract_stances r3) = false
        /\ self w' = mkAgent (mid ++ [s1; s2; s3]) [s3]
        /\ requests w' = requests w + 12).
Proof.
  unfold _conduct_debate. intros Hrun.
  apply bind_ok in Hrun as ([stop T'] & w1 & Hloop & Hret).
  injection Hret as -> ->. cbn [seq debate_rounds_count] in Hloop.
  rewrite round_loop_step in Hloop.
  destruct (debate_round _ _ _ 0 _ _ _ w) as [[[stop1 dr1]|e] u1] eqn:H1;
    [|discriminate Hloop].
  apply (debate_round_ok generate summarize py_str) in H1
    as (x1 & x2 & x3 & -> & Hstop1 & Hend1). cbn [app] in *.
  change (Z.of_nat 0 + 1)%Z with 1%Z in *.
  destruct stop1.
  { destruct Hend1 as [Hs Hr]. injection Hloop as <- <- <-.
    exists x1, x2, x3, x1, x1, x1, x1, x1, x1, x1, x1, x1. left. now repeat split. }
  destruct Hend1 as (s1 & _ & Hs1 & Hr1).
  rewrite round_loop_step in Hloop.
  destruct (debate_round _ _ _ 1 _ _ _ u1) as [[[stop2 dr2]|e] u2] eqn:H2;
    [|discriminate Hloop].
  apply (debate_round_ok generate summarize py_str) in H2
    as (y1 & y2 & y3 & -> & Hstop2 & Hend2). cbn [app] in *.
  change (Z.of_nat 1 + 1)%Z with 2%Z in *.
  destruct stop2.
  { destruct Hend2 as [Hs Hr]. injection Hloop as <- <- <-.
    exists x1, x2, x3, y1, y2, y3, x1, x1, x1, s1, x1, x1. right; left.
    rewrite Hs, Hs1, Hr, Hr1. repeat split; try easy. lia. }
  destruct Hend2 as (s2 & _ & Hs2 & Hr2).
  rewrite round_loop_step in Hloop.
  destruct (debate_round _ _ _ 2 _ _ _ u2) as [[[stop3 dr3]|e] u3] eqn:H3;
    [|discriminate Hloop].
  apply (debate_round_ok generate summarize py_str) in H3
    as (z1 & z2 & z3 & -> & Hstop3 & Hend3). cbn [app] in *.
  change (Z.of_nat 2 + 1)%Z with 3%Z in *.
  destruct stop3.
  { destruct Hend3 as [Hs Hr]. injection Hloop as <- <- <-.
    exists x1, x2, x3, y1, y2, y3, z1, z2, z3, s1, s2, x1. right; right; left.
    rewrite Hs, Hs2, Hs1, Hr, Hr2, Hr1. cbn [mid_term_memory].
    rewrite <- app_assoc. repeat split; try easy. lia. }
  destruct Hend3 as (s3 & _ & Hs3 & Hr3).
  cbn [round_loop] in Hloop. injection Hloop as <- <- <-.
  exists x1, x2, x3, y1, y2, y3, z1, z2, z3, s1, s2, s3. right; right; right.
  rewrite Hs3, Hs2, Hs1, Hr3, Hr2, Hr1. cbn [mid_term_memory].
  rewrite <- !app_assoc. repeat split; try easy. lia.
Qed.

(** X11. A debate stops before the third round only on agreement: when
    the transcript has fewer than nine entries, its last three entries
    carry the same stance label. *)
Theorem early_stop_only_on_agreement (market_data proposed_action : Value)
    (w w' : World) (T : list RoundEntry)
    (Hrun : _conduct_debate generate summarize py_str market_data
              proposed_action w = (Ok T, w'))
    (Hshort : length T < 9) :
  exists s : string, _extract_stances (drop (length T - 3) T) = [s; s; s].
Proof.
  apply conduct_debate_trace in Hrun
    as (x1 & x2 & x3 & y1 & y2 & y3 & z1 & z2 & z3 & s1 & s2 & s3 & Hcases).
  cbn zeta in Hcases.
  destruct Hcases as [(-> & C & _)|[(-> & _ & C & _)|[(-> & _)|(-> & _)]]];
    cbn [length app] in Hshort; try lia;
    cbn [length app drop Nat.sub _extract_stances] in *;
    apply converged_three in C as [-> ->]; eauto.
Qed.

(** X12. The transcript is laid out round by round in the declared order
    of the roles: its entry number [i], counting from 0, belongs to round
    [i / 3 + 1] and to the role number [i mod 3]. *)
Theorem transcript_layout (market_data proposed_action : Value)
    (w w' : World) (T : list RoundEntry) (i : nat) (e : RoundEntry)
    (Hrun : _conduct_debate generate summarize py_str market_data
              proposed_action w = (Ok T, w'))
    (Hi : T !! i = Some e) :
  round e = (Z.of_nat (i / 3) + 1)%Z
  /\ name <$> roles !! (i mod 3) = Some (perspective e).
Proof.
  apply conduct_debate_trace in Hrun
    as (x1 & x2 & x3 & y1 & y2 & y3 & z1 & z2 & z3 & s1 & s2 & s3 & Hcases).
  cbn zeta in Hcases.
  destruct Hcases as [(-> & _)|[(-> & _)|[(-> & _)|(-> & _)]]];
    cbn [app] in Hi;
    do 9 (try (destruct i as [|i];
               [injection Hi as <-; split; reflexivity|cbn in Hi]));
    discriminate Hi.
Qed.

(** X13. A debate summarises every round that ended without agreement
    and no other: the mid-term memory gains one summary per round, less
    one when the last round agreed, and the short-term memory ends with
    the last summary, or as it was when the first round agreed. The
    debate makes one request per entry and one per summary. *)
Theorem memory_after_debate (market_data proposed_action : Value)
    (w w' : World) (T : list RoundEntry)
    (Hrun : _conduct_debate generate summarize py_str market_data
              proposed_action w = (Ok T, w')) :
  exists summaries : list string,
    mid_term_memory (self w') = (mid_term_memory (self w) ++ summaries)%list
    /\ length summaries
       = (if converged (_extract_stances (drop (length T - 3) T))
          then length T / 3 - 1 else length T / 3)
    /\ short_term_memory (self w')
       = match last summaries with
         | Some s => [s]
         | None => short_term_memory (self w)
         end
    /\ requests w' = requests w + length T + length summaries.
Proof.
  apply conduct_debate_trace in Hrun
    as (x1 & x2 & x3 & y1 & y2 & y3 & z1 & z2 & z3 & s1 & s2 & s3 & Hcases).
  cbn zeta in Hcases.
  destruct Hcases as [(-> & C1 & -> & ->)|[(-> & C1 & C2 & -> & ->)
    |[(-> & C1 & C2 & C3 & -> & ->)|(-> & C1 & C2 & C3 & -> & ->)]]];
    cbn [length app drop Nat.sub] in *.
  - exists []. rewrite C1, app_nil_r. repeat split; cbn; lia.
  - exists [s1]. rewrite C2. repeat split; cbn; lia.
  - exists [s1; s2]. rewrite C3. repeat split; cbn; lia.
  - exists [s1; s2; s3]. rewrite C3. repeat split; cbn; lia.
Qed.

Lemma join_snoc (sep s : string) (l : list string) :
  PyStr.join sep (l ++ [s])
  = match l with
    | [] => s
    | _ => PyStr.join sep l +:+ sep +:+ s
    end.
Proof.
  destruct l as [|p l]; [reflexivity|].
  now rewrite join_app by discriminate.
Qed.

(** X14. After a round without agreement the memory texts shown in the
    next prompts are: as short-term text the new summary, which is the
    reply of the summarizer to the three texts of the round; as mid-term
    text the previous one followed by a bar and the new summary, or the
    new summary alone when the mid-term memory was empty. *)
Theorem memory_texts_after_round (round_num : nat)
    (market_data proposed_action : Value) (debate_rounds : list RoundEntry)
    (w w' : World) (debate_rounds' : list RoundEntry)
    (Hrun : debate_round generate summarize py_str round_num market_data
              proposed_action debate_rounds w = (Ok (false, debate_rounds'), w')) :
  exists s : string,
    summarize (requests w + 3)
      (map arguments (drop (length debate_rounds) debate_rounds')) = Some s
    /\ _get_short_term_info (self w') = s
    /\ _get_mid_term_info (self w')
       = match mid_term_memory (self w) with
         | [] => s
         | _ => _get_mid_term_info (self w) +:+ " | " +:+ s
         end.
Proof.
  apply debate_round_ok in Hrun as (a & b & c & -> & _ & s & Hs & Hself & _).
  exists s. rewrite drop_app_length. split; [exact Hs|].
  rewrite Hself. split; [reflexivity|].
  unfold _get_mid_term_info. cbn [mid_term_memory].
  rewrite join_snoc.
  destruct (mid_term_memory (self w)) as [|m l]; reflexivity.
Qed.

End Traces.

Lemma early_stop_only_on_agreement_witness :
  _conduct_debate Examples.unanimous_panel Examples.digest Examples.opaque_str
    (VDict Examples.up_market) (VDict ∅) Examples.fresh
  = (Ok Examples.unanimous_transcript, mkWorld __init__ 3)
  /\ length Examples.unanimous_transcript < 9
  /\ exists s : string,
       _extract_stances
         (drop (length Examples.unanimous_transcript - 3) Examples.unanimous_transcript)
       = [s; s; s].
Proof.
  split; [vm_compute; reflexivity|]. split; [cbn; lia|].
  apply (early_stop_only_on_agreement Examples.unanimous_panel Examples.digest
           Examples.opaque_str (VDict Examples.up_market) (VDict ∅)
           Examples.fresh (mkWorld __init__ 3));
    [vm_compute; reflexivity|cbn; lia].
Defined.

Lemma transcript_layout_witness :
  _conduct_debate Examples.unanimous_panel Examples.digest Examples.opaque_str
    (VDict Examples.up_market) (VDict ∅) Examples.fresh
  = (Ok Examples.unanimous_transcript, mkWorld __init__ 3)
  /\ Examples.unanimous_transcript !! 1
     = Some (mkEntry 1 "technical" "Bullish. Upward momentum with low risk.")
  /\ round (mkEntry 1 "technical" "Bullish. Upward momentum with low risk.")
     = (Z.of_nat (1 / 3) + 1)%Z
  /\ name <$> roles !! (1 mod 3)
     = Some (perspective
               (mkEntry 1 "technical" "Bullish. Upward momentum with low risk.")).
Proof.
  split; [vm_compute; reflexivity|]. split; [reflexivity|].
  apply (transcript_layout Examples.unanimous_panel Examples.digest
           Examples.opaque_str (VDict Examples.up_market) (VDict ∅)
           Examples.fresh (mkWorld __init__ 3) Examples.unanimous_transcript 1);
    [vm_compute; reflexivity|reflexivity].
Defined.

Lemma memory_after_debate_witness :
  _conduct_debate Examples.stubborn_panel Examples.digest Examples.opaque_str
    (VDict Examples.up_market) (VDict ∅) Examples.fresh
  = (Ok (Examples.two_rounds_transcript
         ++ [ mkEntry 3 "fundamental" Examples.bull;
              mkEntry 3 "technical" Examples.bear;
              mkEntry 3 "risk" Examples.side ])%list,
     mkWorld (self Examples.after_first_analysis) 12)
  /\ exists summaries : list string,
       mid_term_memory (self Examples.after_first_analysis)
       = (mid_term_memory (self Examples.fresh) ++ summaries)%list.
Proof.
  split; [vm_compute; reflexivity|].
  destruct (memory_after_debate Examples.stubborn_panel Examples.digest
              Examples.opaque_str (VDict Examples.up_market) (VDict ∅)
              Examples.fresh (mkWorld (self Examples.after_first_analysis) 12)
              (Examples.two_rounds_transcript
               ++ [ mkEntry 3 "fundamental" Examples.bull;
                    mkEntry 3 "technical" Examples.bear;
                    mkEntry 3 "risk" Examples.side ])%list)
    as (summaries & Hmid & _); [vm_compute; reflexivity|].
  now exists summaries.
Defined.

Lemma memory_texts_after_round_witness :
  debate_round Examples.stubborn_panel Examples.digest Examples.opaque_str 0
    (VDict Examples.up_market) (VDict ∅) [] Examples.fresh
  = (Ok (false, take 3 Examples.two_rounds_transcript),
     mkWorld (mkAgent [Examples.stubborn_digest 3] [Examples.stubborn_digest 3]) 4)
  /\ exists s : string,
       _get_short_term_info
         (mkAgent [Examples.stubborn_digest 3] [Examples.stubborn_digest 3]) = s.
Proof.
  split; [vm_compute; reflexivity|].
  destruct (memory_texts_after_round Examples.stubborn_panel Examples.digest
              Examples.opaque_str 0 (VDict Examples.up_market) (VDict ∅) []
              Examples.fresh
              (mkWorld (mkAgent [Examples.stubborn_digest 3]
                          [Examples.stubborn_digest 3]) 4)
              (take 3 Examples.two_rounds_transcript))
    as (s & _ & Hshort & _); [vm_compute; reflexivity|].
  now exists s.
Defined.

(** ** More on the whole analysis *)

Section MoreAnalysis.

Variable generate : nat -> string -> string -> option string.
Variable summarize : nat -> list string -> option string.
Variable py_str : Value -> string.

(** [analyze] unfolded: the debate, the one request of the synthesis, and
    the look-up of the trend that needs a dictionary. *)
Lemma analyze_run (data : gmap string Value) (w : World) :
  analyze generate summarize py_str data w
  = let market_data := default (VDict ∅) (data !! "market_data") in
    let proposed_action := default (VDict ∅) (data !! "proposed_action") in
    match _conduct_debate generate summarize py_str market_data proposed_action w with
    | (Ok T, w1) =>
        match generate (requests w1) synthesis_role
                (synth_head +:+ _get_mid_term_info (self w1)
                   +:+ synth_short +:+ _get_short_term_info (self w1)
                   +:+ synth_history +:+ _format_previous_rounds T
                   +:+ synth_tail) with
        | Some final =>
            (match market_data with
             | VDict d =>
                 Ok (<["confidence_score" := VFloat (_calculate_confidence T d)]>
                     (<["timestamp" := default VNone (data !! "timestamp")]>
                     (<["debate_rounds" := VRounds T]>
                     (<["debate_analysis" := VStr final]> ∅))))
             | _ => Raise AttributeError
             end,
             mkWorld (self w1) (S (requests w1)))
        | None => (Raise GenerationFailure, mkWorld (self w1) (S (requests w1)))
        end
    | (Raise e, w1) => (Raise e, w1)
    end.
Proof.
  unfold analyze. cbn zeta. rewrite bind_run.
  destruct (_conduct_debate _ _ _ _ _ w) as [[T|e] w1]; [|reflexivity].
  unfold _synthesize_debate. rewrite !bind_run. cbn [get_self].
  unfold _create_prompt.
  destruct (generate (requests w1) synthesis_role _) as [final|]; [|reflexivity].
  rewrite bind_run. unfold as_dict.
  destruct (default (VDict ∅) (data !! "market_data")); reflexivity.
Qed.

Lemma persona_loop_raises (round_num : nat) (market_data proposed_action : Value)
    (debate_rounds : list RoundEntry) (todo : list Role) :
  forall round_results w e w',
    persona_loop generate py_str round_num market_data proposed_action
      debate_rounds todo round_results w = (Raise e, w') ->
    e = GenerationFailure.
Proof.
  induction todo as [|role_info todo IH]; intros round_results w e w' Hrun;
    cbn [persona_loop] in Hrun; [discriminate Hrun|].
  apply bind_raise in Hrun as [Hrun|(a & w1 & Ha & Hrun)]; [discriminate Hrun|].
  injection Ha as <- <-.
  apply bind_raise in Hrun as [Hrun|(r & w2 & _ & Hrun)]; [|now apply IH in Hrun].
  unfold _create_prompt in Hrun.
  destruct (generate _ _ _); [discriminate Hrun|]. now injection Hrun as <- _.
Qed.

Lemma debate_round_raises (round_num : nat) (market_data proposed_action : Value)
    (debate_rounds : list RoundEntry) (w : World) (e : exn) (w' : World) :
  debate_round generate summarize py_str round_num market_data proposed_action
    debate_rounds w = (Raise e, w') ->
  e = GenerationFailure \/ e = SummarizerFailure.
Proof.
  unfold debate_round. intros Hrun.
  apply bind_raise in Hrun as [Hrun|(rr & w1 & Hrr & Hrun)].
  { left. now apply persona_loop_raises in Hrun. }
  apply persona_round in Hrr as (_ & _ & a & b & c & ->).
  destruct (converged _); [discriminate Hrun|].
  apply bind_raise in Hrun as [Hrun|(u & w2 & _ & Hrun)]; [|discriminate Hrun].
  rewrite remember_round_run in Hrun by reflexivity.
  destruct (summarize _ _); [discriminate Hrun|].
  right. now injection Hrun as <- _.
Qed.

Lemma round_loop_raises (market_data proposed_action : Value) (todo : list nat) :
  forall debate_rounds w e w',
    round_loop generate summarize py_str market_data proposed_action
      todo debate_rounds w = (Raise e, w') ->
    e = GenerationFailure \/ e = SummarizerFailure.
Proof.
  induction todo as [|round_num todo IH]; intros debate_rounds w e w' Hrun;
    [discriminate Hrun|].
  rewrite round_loop_step in Hrun.
  destruct (debate_round _ _ _ _ _ _ _ w) as [[[[] dr]|e0] w1] eqn:Hround.
  - discriminate Hrun.
  - now apply IH in Hrun.
  - injection Hrun as <- <-. now apply debate_round_raises in Hround.
Qed.

Lemma conduct_debate_raises (market_data proposed_action : Value)
    (w : World) (e : exn) (w' : World) :
  _conduct_debate generate summarize py_str market_data proposed_action w
  = (Raise e, w') ->
  e = GenerationFailure \/ e = SummarizerFailure.
Proof.
  unfold _conduct_debate. intros Hrun.
  apply bind_raise in Hrun as [Hrun|([stop T] & w1 & _ & Hrun)];
    [now apply round_loop_raises in Hrun|discriminate Hrun].
Qed.

(** X15. [analyze] fails in three ways only: the generator fails, the
    summarizer fails, or the market data is given and is not a
    dictionary. The look-up of the last entry of a round never fails,
    since a round always has its three entries. *)
Theorem analyze_failures (data : gmap string Value) (w w' : World) (e : exn)
    (Hrun : analyze generate summarize py_str data w = (Raise e, w')) :
  e <> IndexError
  /\ (e = GenerationFailure \/ e = SummarizerFailure
      \/ (e = AttributeError
          /\ exists v, data !! "market_data" = Some v /\ forall d, v <> VDict d)).
Proof.
  rewrite analyze_run in Hrun. cbn zeta in Hrun.
  destruct (_conduct_debate _ _ _ _ _ w) as [[T|e0] w1] eqn:Hdebate.
  - destruct (generate (requests w1) synthesis_role _) as [final|].
    + destruct (data !! "market_data") as [v|] eqn:Hv;
        cbn [default from_option id] in Hrun.
      * destruct v; try discriminate Hrun; injection Hrun as <- _;
          (split; [discriminate|]); right; right; (split; [reflexivity|]);
          eexists; (split; [reflexivity|]); discriminate.
      * discriminate Hrun.
    + injection Hrun as <- _. split; [discriminate|now left].
  - injection Hrun as <- _.
    apply conduct_debate_raises in Hdebate as [-> | ->];
      (split; [discriminate|]); tauto.
Qed.

Lemma conduct_debate_total (market_data proposed_action : Value) (w : World) :
  (forall n role content, is_Some (generate n role content)) ->
  (forall n speeches, is_Some (summarize n speeches)) ->
  exists T w1,
    _conduct_debate generate summarize py_str market_data proposed_action w
    = (Ok T, w1).
Proof.
  intros Hgen Hsum. unfold _conduct_debate. rewrite bind_run.
  destruct (round_loop_total generate summarize py_str market_data proposed_action
              (seq 0 debate_rounds_count) Hgen Hsum [] w) as ([stop T] & w1 & ->).
  now exists T, w1.
Qed.

(** X16. Market data that is not a dictionary is found out late: when
    the generator and the summarizer answer, [analyze] first runs the
    whole debate and the synthesis, at least four requests, and only then
    fails on the look-up of the trend. *)
Theorem non_dict_market_data_fails_late (data : gmap string Value) (w : World)
    (v : Value)
    (Hgen : forall n role content, is_Some (generate n role content))
    (Hsum : forall n speeches, is_Some (summarize n speeches))
    (Hv : data !! "market_data" = Some v)
    (Hnd : forall d, v <> VDict d) :
  exists w' : World,
    analyze generate summarize py_str data w = (Raise AttributeError, w')
    /\ requests w + 4 <= requests w' <= requests w + 13.
Proof.
  rewrite analyze_run, Hv. cbn [default from_option id]. cbn zeta.
  destruct (conduct_debate_total v (default (VDict ∅) (data !! "proposed_action"))
              w Hgen Hsum) as (T & w1 & Hdebate).
  rewrite Hdebate.
  destruct (Hgen (requests w1) synthesis_role
    (synth_head +:+ _get_mid_term_info (self w1) +:+ synth_short
       +:+ _get_short_term_info (self w1) +:+ synth_history
       +:+ _format_previous_rounds T +:+ synth_tail)) as [final ->].
  eexists. split.
  - destruct v; try reflexivity. now destruct (Hnd d).
  - cbn [requests].
    apply conduct_debate_trace in Hdebate
      as (x1 & x2 & x3 & y1 & y2 & y3 & z1 & z2 & z3 & s1 & s2 & s3 & Hcases).
    cbn zeta in Hcases.
    destruct Hcases as [(_ & _ & _ & ->)|[(_ & _ & _ & _ & ->)
      |[(_ & _ & _ & _ & _ & ->)|(_ & _ & _ & _ & _ & ->)]]]; lia.
Qed.

(** X17. A dictionary returned by [analyze] has exactly four keys. The
    time stamp is the one of the input, or the value [None] when the
    input has none; the analysis text is the reply of the generator to
    the last request, the synthesis prompt built from the whole
    transcript and the memory as the debate left it. The call has made
    one request per entry, one per summarised round and one for the
    synthesis: between 4 and 13. *)
Theorem analyze_result_shape (data : gmap string Value) (w w' : World)
    (result : gmap string Value)
    (Hrun : analyze generate summarize py_str data w = (Ok result, w')) :
  dom result
  = ({[ "debate_analysis"; "debate_rounds"; "timestamp"; "confidence_score" ]}
     : gset string)
  /\ result !! "timestamp" = Some (default VNone (data !! "timestamp"))
  /\ exists (T : list RoundEntry) (final : string),
       result !! "debate_rounds" = Some (VRounds T)
       /\ result !! "debate_analysis" = Some (VStr final)
       /\ generate (pred (requests w')) synthesis_role
            (synth_head +:+ _get_mid_term_info (self w')
               +:+ synth_short +:+ _get_short_term_info (self w')
               +:+ synth_history +:+ _format_previous_rounds T
               +:+ synth_tail) = Some final
       /\ requests w'
          = requests w + length T
            + (if converged (_extract_stances (drop (length T - 3) T))
               then length T / 3 - 1 else length T / 3)
            + 1
       /\ requests w + 4 <= requests w' <= requests w + 13.
Proof.
  rewrite analyze_run in Hrun. cbn zeta in Hrun.
  destruct (_conduct_debate _ _ _ _ _ w) as [[T|e0] w1] eqn:Hdebate;
    [|discriminate Hrun].
  destruct (generate (requests w1) synthesis_role _) as [final|] eqn:Hfinal;
    [|discriminate Hrun].
  destruct (default (VDict ∅) (data !! "market_data")); try discriminate Hrun.
  injection Hrun as <- <-.
  split; [rewrite !dom_insert_L, dom_empty_L; set_solver|].
  split; [now simplify_map_eq|].
  exists T, final.
  split; [now simplify_map_eq|]. split; [now simplify_map_eq|].
  split; [exact Hfinal|]. cbn [requests].
  apply conduct_debate_trace in Hdebate
    as (x1 & x2 & x3 & y1 & y2 & y3 & z1 & z2 & z3 & s1 & s2 & s3 & Hcases).
  cbn zeta in Hcases.
  destruct Hcases as [(-> & C1 & _ & ->)|[(-> & C1 & C2 & _ & ->)
    |[(-> & C1 & C2 & C3 & _ & ->)|(-> & C1 & C2 & C3 & _ & ->)]]];
    cbn [length app drop Nat.sub] in *;
    rewrite ?C1, ?C2, ?C3; cbn; lia.
Qed.

End MoreAnalysis.

Lemma analyze_failures_witness :
  analyze Examples.no_service Examples.digest Examples.opaque_str
    Examples.request Examples.fresh
  = (Raise GenerationFailure, mkWorld __init__ 1)
  /\ GenerationFailure <> IndexError.
Proof.
  split; [reflexivity|].
  apply (analyze_failures Examples.no_service Examples.digest Examples.opaque_str
           Examples.request Examples.fresh (mkWorld __init__ 1) GenerationFailure).
  reflexivity.
Defined.

Lemma non_dict_market_data_fails_late_witness :
  (forall n role content, is_Some (Examples.unanimous_panel n role content))
  /\ (forall n speeches, is_Some (Examples.digest n speeches))
  /\ text_market_request !! "market_data" = Some (VStr "AAPL closed higher")
  /\ (forall d, VStr "AAPL closed higher" <> VDict d)
  /\ exists w' : World,
       analyze Examples.unanimous_panel Examples.digest Examples.opaque_str
         text_market_request Examples.fresh = (Raise AttributeError, w')
       /\ requests Examples.fresh + 4 <= requests w' <= requests Examples.fresh + 13.
Proof.
  assert (H1 : forall n role content,
            is_Some (Examples.unanimous_panel n role content))
    by (intros n role content; eexists; reflexivity).
  assert (H2 : forall n speeches, is_Some (Examples.digest n speeches))
    by (intros n speeches; eexists; reflexivity).
  assert (H3 : text_market_request !! "market_data" = Some (VStr "AAPL closed higher"))
    by (unfold text_market_request; now rewrite lookup_insert_eq).
  assert (H4 : forall d, VStr "AAPL closed higher" <> VDict d) by discriminate.
  do 4 (split; [assumption|]).
  exact (non_dict_market_data_fails_late Examples.unanimous_panel Examples.digest
           Examples.opaque_str text_market_request Examples.fresh
           (VStr "AAPL closed higher") H1 H2 H3 H4).
Defined.

Lemma analyze_result_shape_witness :
  exists (result : gmap string Value) (w' : World),
    analyze Examples.unanimous_panel Examples.digest Examples.opaque_str
      Examples.request Examples.fresh = (Ok result, w')
    /\ result !! "timestamp"
       = Some (default VNone (Examples.request !! "timestamp")).
Proof.
  destruct (analyze Examples.unanimous_panel Examples.digest Examples.opaque_str
              Examples.request Examples.fresh) as [[result|e] w'] eqn:Hrun.
  - exists result, w'. split; [reflexivity|].
    exact (proj1 (proj2 (analyze_result_shape Examples.unanimous_panel
             Examples.digest Examples.opaque_str Examples.request Examples.fresh
             w' result Hrun))).
  - exfalso. vm_compute in Hrun. discriminate Hrun.
Defined.

(** ** The symbols file *)

Lemma lstrip_head (s : string) :
  lstrip s = EmptyString
  \/ exists c r, lstrip s = String c r /\ is_space c = false.
Proof.
  induction s as [|c r IH]; [now left|].
  cbn [lstrip]. destruct (is_space c) eqn:Hc; [exact IH|].
  right. now exists c, r.
Qed.

Lemma rstrip_idem (s : string) : rstrip (rstrip s) = rstrip s.
Proof.
  induction s as [|c r IH]; [reflexivity|].
  cbn [rstrip]. destruct (rstrip r) as [|c' r'] eqn:Hr.
  - destruct (is_space c) eqn:Hc; [reflexivity|].
    cbn [rstrip]. now rewrite Hc.
  - cbn [rstrip]. cbn [rstrip] in IH. rewrite IH. reflexivity.
Qed.

Lemma rstrip_keeps_head (c : ascii) (r : string) :
  is_space c = false -> exists r', rstrip (String c r) = String c r'.
Proof.
  intros Hc. cbn [rstrip]. rewrite Hc. destruct (rstrip r); eauto.
Qed.

Lemma lstrip_strip (s : string) : lstrip (strip s) = strip s.
Proof.
  unfold strip. destruct (lstrip_head s) as [->|(c & r & -> & Hc)]; [reflexivity|].
  destruct (rstrip_keeps_head c r Hc) as [r' ->].
  cbn [lstrip]. now rewrite Hc.
Qed.

Lemma strip_idem (s : string) : strip (strip s) = strip s.
Proof.
  unfold strip at 1. rewrite lstrip_strip. unfold strip. apply rstrip_idem.
Qed.

(** X18. Every symbol [get_available_symbols] returns is a non-empty text
    without white space at either end, so stripping it again changes
    nothing; blank lines give no symbol, and there are never more symbols
    than lines. When a message goes to [st.error] the list of symbols is
    empty. *)
Theorem symbols_are_stripped (f : symbols_file) (lines : list string) :
  Forall (fun s => s <> EmptyString /\ lstrip s = s /\ rstrip s = s /\ strip s = s)
    (fst (get_available_symbols f))
  /\ (snd (get_available_symbols f) = [] \/ fst (get_available_symbols f) = [])
  /\ length (fst (get_available_symbols (Lines lines))) <= length lines
  /\ fst (get_available_symbols
            (Lines (filter (fun line => strip line <> EmptyString) lines)))
     = fst (get_available_symbols (Lines lines))
  /\ fst (get_available_symbols
            (Lines [ "AAPL" +:+ PyStr.nl; PyStr.nl; "  msft " +:+ PyStr.nl; "   " ]))
     = ["AAPL"; "msft"].
Proof.
  split; [|split; [|split; [|split; [|reflexivity]]]].
  - destruct f as [ls| |]; cbn [get_available_symbols fst]; [|constructor..].
    apply Forall_fmap, Forall_forall. intros line Hline.
    apply list_elem_of_filter in Hline as [Hne _]. cbn.
    split; [exact Hne|]. split; [apply lstrip_strip|].
    split; [apply rstrip_idem|apply strip_idem].
  - destruct f; cbn; auto.
  - cbn [get_available_symbols fst]. rewrite length_map. apply length_filter.
  - cbn [get_available_symbols fst]. now rewrite list_filter_filter_l.
Qed.
